(** * ateco_extractor: a shallow embedding of the client and of the exporter

    The development follows the two modules of the package:
    [ateco_extractor.client] (sanitizer, search parameters, HTTP response
    validation, pagination generator, dry-run count) and
    [ateco_extractor.exporter] (record flattening and the sheet writer);
    [ateco_extractor.cli] follows, from the parsed arguments on.

    Python values are the decoded JSON values the package manipulates.
    A [str] is a [string]; its characters stand for the code points below
    256.  Exceptions are explicit: a computation returns a [result]. *)

From Stdlib Require Import ZArith List String Ascii Bool Lia Floats.
Import ListNotations.

Set Warnings "-register-all".

Open Scope string_scope.
Open Scope Z_scope.

(** ** Python values *)

Inductive value : Type :=
| PNone
| PBool (b : bool)
| PInt (n : Z)
| PFloat (f : float)
| PStr (s : string)
| PList (items : list value)
| PDict (entries : list (string * value)).

(** A [dict] with [str] keys, in insertion order; [dict_get] reads the first
    binding of a key. *)
Definition dict := list (string * value).

Inductive pytype := NoneType | TBool | TInt | TFloat | TStr | TList | TDict.

Definition type_of (v : value) : pytype :=
  match v with
  | PNone => NoneType
  | PBool _ => TBool
  | PInt _ => TInt
  | PFloat _ => TFloat
  | PStr _ => TStr
  | PList _ => TList
  | PDict _ => TDict
  end.

(** ** Exceptions *)

Inductive exn : Type :=
| ValueError (msg : string)
| IntLiteralError (literal : string)      (* the ValueError of [int(literal)] *)
| AttributeError (ty : pytype) (attr : string)
| JSONDecodeError
| TransportError (msg : string)           (* whatever [session.get] raises *)
| OpenAPIError (msg : string)
| AuthenticationError (msg : string)
| PaymentRequiredError (msg : string)
| ValidationError (msg : string)
| CellValueError                          (* openpyxl refuses a cell value *)
| OSError (msg : string)                  (* the file system refuses an operation *)
| AssertionError (msg : string).

Inductive result (A : Type) : Type :=
| Ok (a : A)
| Raise (e : exn).

Arguments Ok {A} a.
Arguments Raise {A} e.

Definition bind {A B} (m : result A) (k : A -> result B) : result B :=
  match m with
  | Ok a => k a
  | Raise e => Raise e
  end.

Notation "x <- m ;; k" := (bind m (fun x => k))
  (at level 61, m at next level, right associativity).

Definition is_ok {A} (m : result A) : bool :=
  match m with Ok _ => true | Raise _ => false end.

(** ** Built-ins used by the package *)

(** [bool(v)] *)
Definition truthy (v : value) : bool :=
  match v with
  | PNone => false
  | PBool b => b
  | PInt n => negb (n =? 0)
  | PFloat f => negb (PrimFloat.eqb f PrimFloat.zero)
  | PStr s => negb (String.eqb s "")
  | PList l => match l with [] => false | _ => true end
  | PDict d => match d with [] => false | _ => true end
  end.

(** The value bound to [key] in [d], when the key is present. *)
Fixpoint dict_lookup (key : string) (d : dict) : option value :=
  match d with
  | [] => None
  | (k, v) :: rest => if String.eqb k key then Some v else dict_lookup key rest
  end.

(** [d.get(key, default)] *)
Definition dict_get_default (d : dict) (key : string) (default : value) : value :=
  match dict_lookup key d with
  | Some v => v
  | None => default
  end.

(** [d.get(key)] *)
Definition dict_get (d : dict) (key : string) : value :=
  dict_get_default d key PNone.

(** [v.get(key)] on an arbitrary value: only a [dict] has the method. *)
Definition get (v : value) (key : string) : result value :=
  match v with
  | PDict d => Ok (dict_get d key)
  | _ => Raise (AttributeError (type_of v) "get")
  end.

(** [a or b], with [b] already a value *)
Definition por (a b : value) : value := if truthy a then a else b.

(** [str.isdigit] on one character: the decimal digits and, below code point
    256, the superscripts U+00B2, U+00B3 and U+00B9. *)
Definition isdigit (c : ascii) : bool :=
  let n := N_of_ascii c in
  (((48 <=? n) && (n <=? 57)) || (n =? 178) || (n =? 179) || (n =? 185))%N.

(** [str.isdecimal] on one character: what [int] accepts as a digit. *)
Definition isdecimal (c : ascii) : bool :=
  let n := N_of_ascii c in ((48 <=? n) && (n <=? 57))%N.

Fixpoint str_all (p : ascii -> bool) (s : string) : bool :=
  match s with
  | EmptyString => true
  | String c rest => p c && str_all p rest
  end.

Fixpoint str_filter (p : ascii -> bool) (s : string) : string :=
  match s with
  | EmptyString => EmptyString
  | String c rest => if p c then String c (str_filter p rest) else str_filter p rest
  end.

Fixpoint str_in (c : ascii) (s : string) : Prop :=
  match s with
  | EmptyString => False
  | String c' rest => c' = c \/ str_in c rest
  end.

(** [s.isdigit()]: at least one character, all of them digits. *)
Definition str_isdigit (s : string) : bool :=
  negb (String.eqb s "") && str_all isdigit s.

Definition digit_value (c : ascii) : Z := Z.of_N (N_of_ascii c) - 48.

Fixpoint decimal_acc (acc : Z) (s : string) : Z :=
  match s with
  | EmptyString => acc
  | String c rest => decimal_acc (10 * acc + digit_value c) rest
  end.

(** What the package takes from the Python runtime and from its libraries
    without defining it: every statement below holds for any such runtime. *)
Class Runtime := {
  (** [s.upper()] *)
  str_upper : string -> string;
  (** [str(v)], as an f-string renders a value that is not a [str] *)
  py_str : value -> string;
  (** [datetime.fromtimestamp(t, tz=timezone.utc).isoformat()] for a number
      [t]; [None] when it raises OverflowError, OSError or ValueError *)
  utc_isoformat : value -> option string;
  (** whether openpyxl converts the value into a cell *)
  cell_accepts : value -> bool;
  (** [sys.get_int_max_str_digits()]: the longest digit string [int]
      converts, 0 for no limit *)
  int_max_str_digits : nat
}.

Definition within_int_limit `{Runtime} (s : string) : bool :=
  ((int_max_str_digits =? 0) || (String.length s <=? int_max_str_digits))%nat.

(** [int(s)] for a string that passed [isdigit]: it has no sign, blank or
    underscore; [int] rejects the superscript digits and a string longer
    than the limit of the interpreter. *)
Definition int_of_digits `{Runtime} (s : string) : result Z :=
  if str_all isdecimal s && within_int_limit s then Ok (decimal_acc 0 s)
  else Raise (IntLiteralError s).

(** [f"{v}"] *)
Definition fmt `{Runtime} (v : value) : string :=
  match v with
  | PStr s => s
  | _ => py_str v
  end.

(** ** client.py *)

Module Client.

Definition PRODUCTION_BASE_URL := "https://company.openapi.com".
Definition SANDBOX_BASE_URL := "https://test.company.openapi.com".

Definition structure_message := "Unexpected response structure: 'data' is not a list".
Definition total_message := "Dry run response did not include 'metadata.total'".

(** [sanitize_ateco_code] *)
Definition sanitize_ateco_code (code : string) : result string :=
  if negb (truthy (PStr code)) then
    Raise (ValueError "ATECO code must be provided")
  else
    let digits := str_filter isdigit code in
    if negb (truthy (PStr digits)) then
      Raise (ValueError ("ATECO code '" ++ code ++ "' does not contain any digits"))
    else Ok digits.

(** [SearchParams] *)
Record SearchParams := {
  province : string;
  ateco_code : string;
  data_enrichment : string;
  limit : Z;
  activity_status : option string;
  dry_run : bool
}.

Definition opt_truthy (o : option string) : bool :=
  match o with
  | Some s => truthy (PStr s)
  | None => false
  end.

Definition opt_value (o : option string) : value :=
  match o with
  | Some s => PStr s
  | None => PNone
  end.

(** A reply of the HTTP session: [error_text] is [str(exc)] of the HTTPError
    that [raise_for_status] raises on a 4xx or 5xx status; [body] is what
    [response.json()] decodes, [None] when the text is not JSON. *)
Record response := {
  status_code : Z;
  text : string;
  error_text : string;
  body : option value
}.

(** The session object of the client: [session.get(url, params, timeout)]
    answers and moves to its next state. *)
Class Session (S : Type) := {
  session_get : S -> string -> dict -> Z -> result response * S
}.

Record client := {
  base_url : string;
  timeout : Z
}.

(** [OpenAPICompanyClient.__init__], without the header defaults *)
Definition new_client (token : string) (sandbox : bool) (timeout : Z)
  : result client :=
  if negb (truthy (PStr token)) then
    Raise (ValueError "A valid OpenAPI bearer token must be provided")
  else
    Ok {| base_url := if sandbox then SANDBOX_BASE_URL else PRODUCTION_BASE_URL;
          timeout := timeout |}.

(** Calls on the session: a state and error monad. *)
Definition io (S A : Type) : Type := S -> result A * S.

Definition io_bind {S A B} (m : io S A) (k : A -> io S B) : io S B :=
  fun s => match m s with
           | (Ok a, s') => k a s'
           | (Raise e, s') => (Raise e, s')
           end.

Definition lift {S A} (m : result A) : io S A := fun s => (m, s).

Notation "x <~ m ;; k" := (io_bind m (fun x => k))
  (at level 61, m at next level, right associativity).

(** What the generator has done once it is drained: the records it yielded,
    the query of every page it asked for, and how it ended. *)
Inductive ending : Type :=
| Finished
| Raised (e : exn)
| OutOfFuel.

Record run (S : Type) := {
  yielded : list value;
  queries : list dict;
  outcome : ending;
  session_after : S
}.

Arguments yielded {S} r.
Arguments queries {S} r.
Arguments outcome {S} r.
Arguments session_after {S} r.

(** [max_records is not None and fetched >= max_records] *)
Definition cap_reached (max_records : option Z) (fetched : Z) : bool :=
  match max_records with
  | Some m => m <=? fetched
  | None => false
  end.

(** The [for item in data] loop of the generator: the items yielded, the
    counter after them, and whether the loop left through [return]. *)
Fixpoint yield_items (max_records : option Z) (data : list value) (fetched : Z)
  : list value * Z * bool :=
  match data with
  | [] => ([], fetched, false)
  | item :: rest =>
      let fetched := fetched + 1 in
      if cap_reached max_records fetched then ([item], fetched, true)
      else
        let '(more, fetched, returned) := yield_items max_records rest fetched in
        (item :: more, fetched, returned)
  end.

(** How one turn of the [while True] loop ends: the loop is left ([break],
    [return] or an exception) or goes on with the next offset. *)
Inductive page_result : Type :=
| PageStop (ys : list value) (e : ending)
| PageNext (ys : list value) (fetched : Z).

Section WithRuntime.

Context {RT : Runtime} {St : Type} {SE : Session St}.

(** [SearchParams.as_query_params] *)
Definition as_query_params (self : SearchParams) (skip : Z) : dict :=
  ([ ("province", PStr (str_upper (province self)));
     ("atecoCode", PStr (ateco_code self));
     ("limit", PInt (limit self));
     ("skip", PInt skip) ]
   ++ (if truthy (PStr (data_enrichment self))
       then [("dataEnrichment", PStr (data_enrichment self))] else [])
   ++ (if opt_truthy (activity_status self)
       then [("activityStatus", opt_value (activity_status self))] else [])
   ++ (if dry_run self then [("dryRun", PInt 1)] else []))%list.

(** [raise_for_status] raises on the client and server error statuses. *)
Definition is_http_error (status : Z) : bool :=
  (400 <=? status) && (status <? 600).

(** [payload.get(key, default)] on whatever [response.json()] returned *)
Definition get_default (v : value) (key : string) (default : value) : result value :=
  match v with
  | PDict d => Ok (dict_get_default d key default)
  | _ => Raise (AttributeError (type_of v) "get")
  end.

(** [_get], from the reply on: the shared response validation. *)
Definition validate (r : response) : result value :=
  if status_code r =? 401 then
    Raise (AuthenticationError "Unauthorized: check your bearer token")
  else if status_code r =? 402 then
    Raise (PaymentRequiredError "Insufficient credits on OpenAPI account")
  else if status_code r =? 422 then
    Raise (ValidationError "Request rejected: invalid parameters")
  else if is_http_error (status_code r) then
    let message := if truthy (PStr (text r)) then text r else error_text r in
    Raise (OpenAPIError ("OpenAPI request failed: " ++ message))
  else
    match body r with
    | None => Raise JSONDecodeError
    | Some payload =>
        success <- get_default payload "success" (PBool false) ;;
        if negb (truthy success) then
          m <- get payload "message" ;;
          let message := por m (PStr "Unknown error") in
          Raise (OpenAPIError ("OpenAPI reported an error: " ++ fmt message))
        else Ok payload
    end.

(** [OpenAPICompanyClient._get] *)
Definition _get (self : client) (path : string) (params : dict) : io St value :=
  let url := base_url self ++ path in
  r <~ (fun s => session_get s url params (timeout self)) ;;
  lift (validate r).

(** The first statements of [search_companies], up to the [SearchParams]. *)
Definition search_params (province ateco_code data_enrichment : string)
    (limit : Z) (activity_status : option string) : result SearchParams :=
  if limit <=? 0 then Raise (ValueError "limit must be greater than zero")
  else
    sanitized_code <- sanitize_ateco_code ateco_code ;;
    Ok {| province := province;
          ateco_code := sanitized_code;
          data_enrichment := data_enrichment;
          limit := Z.min limit 100;
          activity_status := activity_status;
          dry_run := false |}.

Definition stop (ys : list value) (qs : list dict) (e : ending) (s : St) : run St :=
  {| yielded := ys; queries := qs; outcome := e; session_after := s |}.

(** One more page came before the rest of the run. *)
Definition after_page (ys : list value) (q : dict) (r : run St) : run St :=
  {| yielded := (ys ++ yielded r)%list;
     queries := q :: queries r;
     outcome := outcome r;
     session_after := session_after r |}.

(** One turn of the [while True] loop of [search_companies], from the
    validated payload on. *)
Definition page (params : SearchParams) (max_records : option Z) (fetched : Z)
    (payload : value) : page_result :=
  match get_default payload "data" (PList []) with
  | Raise e => PageStop [] (Raised e)
  | Ok (PList data) =>
      if negb (truthy (PList data)) then PageStop [] Finished
      else
        let '(ys, fetched, returned) := yield_items max_records data fetched in
        if returned then PageStop ys Finished
        else if Z.of_nat (List.length data) <? limit params then PageStop ys Finished
        else PageNext ys fetched
  | Ok _ => PageStop [] (Raised (OpenAPIError structure_message))
  end.

(** The [while True] loop of [search_companies]; [fuel] bounds the number of
    pages asked for. *)
Fixpoint pages (fuel : nat) (self : client) (params : SearchParams)
    (max_records : option Z) (fetched skip : Z) (s : St) : run St :=
  match fuel with
  | O => stop [] [] OutOfFuel s
  | S fuel =>
      let q := as_query_params params skip in
      match _get self "/IT-search" q s with
      | (Raise e, s) => stop [] [q] (Raised e) s
      | (Ok payload, s) =>
          match page params max_records fetched payload with
          | PageStop ys e => stop ys [q] e s
          | PageNext ys fetched =>
              after_page ys q
                (pages fuel self params max_records fetched (skip + limit params) s)
          end
      end
  end.

(** [OpenAPICompanyClient.search_companies], drained by its consumer. *)
Definition search_companies (fuel : nat) (self : client)
    (province ateco_code data_enrichment : string) (limit : Z)
    (max_records : option Z) (activity_status : option string) (s : St) : run St :=
  match search_params province ateco_code data_enrichment limit activity_status with
  | Raise e => stop [] [] (Raised e) s
  | Ok params => pages fuel self params max_records 0 0 s
  end.

(** [isinstance(total, int)]: a [bool] is an [int] too, worth 0 or 1. *)
Definition as_int (v : value) : option Z :=
  match v with
  | PInt n => Some n
  | PBool b => Some (Z.b2z b)
  | _ => None
  end.

(** The last statements of [dry_run_count], on the validated payload. *)
Definition read_total (payload : value) : result Z :=
  m <- get payload "metadata" ;;
  let metadata := por m (PDict []) in
  total <- get metadata "total" ;;
  match as_int total with
  | Some n => Ok n
  | None =>
      match total with
      | PStr s =>
          if str_isdigit s then int_of_digits s
          else Raise (OpenAPIError total_message)
      | _ => Raise (OpenAPIError total_message)
      end
  end.

(** [OpenAPICompanyClient.dry_run_count] *)
Definition dry_run_count (self : client) (province ateco_code : string)
    (activity_status : option string) : io St Z :=
  sanitized_code <~ lift (sanitize_ateco_code ateco_code) ;;
  let params := {| province := province;
                   ateco_code := sanitized_code;
                   data_enrichment := "";
                   limit := 1;
                   activity_status := activity_status;
                   dry_run := true |} in
  payload <~ _get self "/IT-search" (as_query_params params 0) ;;
  lift (read_total payload).

End WithRuntime.

End Client.

(** ** exporter.py *)

Module Exporter.

Definition STANDARD_HEADERS : list string :=
  [ "id"; "company_name"; "vat_code"; "tax_code"; "activity_status"; "cciaa";
    "rea_code"; "start_date"; "registration_date"; "address"; "street_number";
    "toponym"; "town"; "province"; "zip_code"; "town_code"; "region";
    "latitude"; "longitude"; "ateco_code"; "ateco_description";
    "ateco_secondary"; "ateco2022_code"; "ateco2022_description"; "pec";
    "sdi_code"; "sdi_code_updated_at"; "last_update_timestamp";
    "creation_timestamp"; "turnover"; "turnover_year"; "turnover_range";
    "share_capital"; "net_worth"; "enterprise_size"; "employees";
    "employee_range"; "employee_trend"; "website"; "email"; "telephone"; "fax" ].

(** [_nested_get] *)
Fixpoint _nested_get (current : value) (path : list string) : value :=
  match path with
  | [] => current
  | key :: path =>
      match current with
      | PDict d => _nested_get (dict_get d key) path
      | _ => PNone
      end
  end.

(** [_safe_coordinate]; the package calls it with index 0 and 1. *)
Definition _safe_coordinate (address : value) (index : nat) : result value :=
  g <- get address "gps" ;;
  let gps := por g (PDict []) in
  coords <- get gps "coordinates" ;;
  match coords with
  | PList items =>
      if (index <? List.length items)%nat then Ok (nth index items PNone)
      else Ok PNone
  | _ => Ok PNone
  end.

(** A dict display: the entries are evaluated in order and the first one
    that raises ends the evaluation. *)
Fixpoint display (fields : list (string * result value)) : result dict :=
  match fields with
  | [] => Ok []
  | (key, m) :: fields =>
      v <- m ;;
      d <- display fields ;;
      Ok ((key, v) :: d)
  end.

(** One sheet: its rows of cell values, and the width set on each column,
    in column order. *)
Record worksheet := {
  title : string;
  rows : list (list value);
  column_widths : list Z
}.

(** A workbook: the active sheet and the other ones. *)
Record workbook := {
  active : worksheet;
  other_sheets : list worksheet
}.

(** [Workbook()] *)
Definition new_workbook : workbook :=
  {| active := {| title := "Sheet"; rows := []; column_widths := [] |};
     other_sheets := [] |}.

(** [ws.title = name] *)
Definition set_title (ws : worksheet) (name : string) : worksheet :=
  {| title := name; rows := rows ws; column_widths := column_widths ws |}.

(** The file system, as far as the export uses it. Each operation gives the
    message of the OSError it raises, if it raises (a file where a directory
    is needed, a directory at the path of the file, a missing permission, a
    full disk), and the file system it leaves. *)
Class FileSystem (FS : Type) := {
  (** [Path(path).parent.mkdir(parents=True, exist_ok=True)] *)
  mkdir_parent : string -> FS -> option string * FS;
  (** [wb.save(path)] *)
  wb_save : workbook -> string -> FS -> option string * FS
}.

Section WithRuntime.

Context {RT : Runtime} {FS : Type} {FI : FileSystem FS}.

(** [isinstance(timestamp, (int, float))] *)
Definition is_number (v : value) : bool :=
  match v with
  | PBool _ | PInt _ | PFloat _ => true
  | _ => false
  end.

(** [_timestamp_to_iso] *)
Definition _timestamp_to_iso (timestamp : value) : value :=
  if is_number timestamp then
    match utc_isoformat timestamp with
    | Some iso => PStr iso
    | None => timestamp
    end
  else timestamp.

(** [flatten_company_record] *)
Definition flatten_company_record (record : value) : result dict :=
  a <- get record "address" ;;
  a <- get (por a (PDict [])) "registeredOffice" ;;
  let address := por a (PDict []) in
  c <- get record "atecoClassification" ;;
  c <- get (por c (PDict [])) "ateco" ;;
  let ateco := por c (PDict []) in
  c <- get record "atecoClassification" ;;
  ateco_secondary <- get (por c (PDict [])) "secondaryAteco" ;;
  c <- get record "atecoClassification" ;;
  c <- get (por c (PDict [])) "ateco2022" ;;
  let ateco2022 := por c (PDict []) in
  b <- get record "balanceSheets" ;;
  last <- get (por b (PDict [])) "last" ;;
  ecofin <- (if truthy last then Ok last
             else e <- get record "ecofin" ;; Ok (por e (PDict []))) ;;
  e <- get record "employees" ;;
  let employees_block := por e (PDict []) in
  display
    [ ("id", get record "id");
      ("company_name", get record "companyName");
      ("vat_code", get record "vatCode");
      ("tax_code", get record "taxCode");
      ("activity_status", get record "activityStatus");
      ("cciaa", get record "cciaa");
      ("rea_code", get record "reaCode");
      ("start_date", get record "startDate");
      ("registration_date", get record "registrationDate");
      ("address", get address "streetName");
      ("street_number", get address "streetNumber");
      ("toponym", get address "toponym");
      ("town", get address "town");
      ("province", get address "province");
      ("zip_code", get address "zipCode");
      ("town_code", get address "townCode");
      ("region", Ok (_nested_get address ["region"; "description"]));
      ("latitude", _safe_coordinate address 1);
      ("longitude", _safe_coordinate address 0);
      ("ateco_code", get ateco "code");
      ("ateco_description", get ateco "description");
      ("ateco_secondary", Ok ateco_secondary);
      ("ateco2022_code", get ateco2022 "code");
      ("ateco2022_description", get ateco2022 "description");
      ("pec", get record "pec");
      ("sdi_code", get record "sdiCode");
      ("sdi_code_updated_at",
        t <- get record "sdiCodeTimestamp" ;; Ok (_timestamp_to_iso t));
      ("last_update_timestamp",
        t <- get record "lastUpdateTimestamp" ;; Ok (_timestamp_to_iso t));
      ("creation_timestamp",
        t <- get record "creationTimestamp" ;; Ok (_timestamp_to_iso t));
      ("turnover", get ecofin "turnover");
      ("turnover_year", get ecofin "turnoverYear");
      ("turnover_range", Ok (_nested_get ecofin ["turnoverRange"; "description"]));
      ("share_capital", get ecofin "shareCapital");
      ("net_worth", get ecofin "netWorth");
      ("enterprise_size", Ok (_nested_get ecofin ["enterpriseSize"; "description"]));
      ("employees",
        e <- get employees_block "employee" ;;
        if truthy e then Ok e else get ecofin "employees");
      ("employee_range",
        Ok (_nested_get employees_block ["employeeRange"; "description"]));
      ("employee_trend", get employees_block "employeeTrend");
      ("website", Ok (_nested_get record ["webAndSocial"; "website"]));
      ("email", Ok (_nested_get record ["mail"; "email"]));
      ("telephone", Ok (_nested_get record ["contacts"; "telephoneNumber"]));
      ("fax", Ok (_nested_get record ["contacts"; "fax"])) ].

(** [rows = [flatten_company_record(record) for record in records]] *)
Fixpoint flatten_all (records : list value) : result (list dict) :=
  match records with
  | [] => Ok []
  | record :: records =>
      row <- flatten_company_record record ;;
      rows <- flatten_all records ;;
      Ok (row :: rows)
  end.

(** [ws.append(cells)]: openpyxl binds every value to a cell of a new last
    row, or raises on the first value it cannot convert. *)
Definition ws_append (ws : worksheet) (cells : list value) : result worksheet :=
  if forallb cell_accepts cells then
    Ok {| title := title ws;
          rows := (rows ws ++ [cells])%list;
          column_widths := column_widths ws |}
  else Raise CellValueError.

(** [for row in rows: ws.append([row.get(header) for header in headers])] *)
Fixpoint append_rows (ws : worksheet) (headers : list string) (rows : list dict)
  : result worksheet :=
  match rows with
  | [] => Ok ws
  | row :: rows =>
      ws <- ws_append ws (map (dict_get row) headers) ;;
      append_rows ws headers rows
  end.

(** [max(str_lengths, default=10)] *)
Definition max_default (lengths : list Z) (default : Z) : Z :=
  match lengths with
  | [] => default
  | l :: ls => fold_left Z.max ls l
  end.

(** The width [_autosize_columns] gives to column [idx] (from 1). *)
Definition column_width (ws : worksheet) (idx : nat) : Z :=
  let values := map (fun row => nth (idx - 1) row PNone) (rows ws) in
  let str_lengths :=
    flat_map (fun v => match v with
                       | PNone => []
                       | _ => [Z.of_nat (String.length (fmt v))]
                       end) values in
  Z.min (max_default str_lengths 10 + 2) 60.

(** [_autosize_columns] *)
Definition _autosize_columns (ws : worksheet) (count : nat) : worksheet :=
  {| title := title ws;
     rows := rows ws;
     column_widths := map (column_width ws) (seq 1 count) |}.

(** [export_to_excel] up to [_autosize_columns]: the flat records and the
    workbook that is ready to be saved. Nothing here touches the file
    system. *)
Definition fill_workbook (records : list value) : result (list dict * workbook) :=
  rows <- flatten_all records ;;
  let headers := STANDARD_HEADERS in
  let wb := new_workbook in
  let ws := set_title (active wb) "Aziende" in
  ws <- ws_append ws (map PStr headers) ;;
  ws <- append_rows ws headers rows ;;
  let ws := _autosize_columns ws (List.length headers) in
  Ok (rows, {| active := ws; other_sheets := other_sheets wb |}).

(** [export_to_excel] from [mkdir] on: the parent directory is made, the
    workbook is saved and the count is returned; an OSError of either
    operation ends the call. *)
Definition save_workbook (wb : workbook) (output_path : string) (count : Z)
    (fs : FS) : result Z * FS :=
  match mkdir_parent output_path fs with
  | (Some msg, fs) => (Raise (OSError msg), fs)
  | (None, fs) =>
      match wb_save wb output_path fs with
      | (Some msg, fs) => (Raise (OSError msg), fs)
      | (None, fs) => (Ok count, fs)
      end
  end.

(** [export_to_excel]: the value returned, or the exception, and the file
    system after the call. *)
Definition export_to_excel (records : list value) (output_path : string)
    (fs : FS) : result Z * FS :=
  match fill_workbook records with
  | Raise e => (Raise e, fs)
  | Ok (rows, wb) => save_workbook wb output_path (Z.of_nat (List.length rows)) fs
  end.

End WithRuntime.

End Exporter.

(** ** The doubles of the test suite and a runtime to evaluate with *)

Module Doubles.

Import Client.

(** [DummyResponse(status_code, payload)] *)
Definition DummyResponse (status : Z) (payload : value) : response :=
  {| status_code := status; text := ""; error_text := ""; body := Some payload |}.

(** [DummySession]: the replies still to serve and the calls received. *)
Record DummySession := {
  _responses : list response;
  calls : list (string * dict * Z)
}.

#[export] Instance dummy_session : Session DummySession := {
  session_get s url params timeout :=
    let calls := (calls s ++ [(url, params, timeout)])%list in
    match _responses s with
    | [] => (Raise (AssertionError "No more dummy responses available"),
             {| _responses := []; calls := calls |})
    | r :: rest => (Ok r, {| _responses := rest; calls := calls |})
    end
}.

(** [make_client]: the client and the session it holds. *)
Definition make_client (payloads : list value) : client * DummySession :=
  ({| base_url := SANDBOX_BASE_URL; timeout := 30 |},
   {| _responses := map (DummyResponse 200) payloads; calls := [] |}).

(** A session that serves the same reply for ever and counts its calls. *)
Record Endless := {
  reply : response;
  served : nat
}.

#[export] Instance endless_session : Session Endless := {
  session_get s url params timeout :=
    (Ok (reply s), {| reply := reply s; served := S (served s) |})
}.

(** A file system for the examples: the paths that are directories and the
    workbooks saved at their paths, the latest first. Every parent directory
    is there already; a workbook is not saved at the path of a directory. *)
Record Disk := {
  directories : list string;
  workbooks : list (string * Exporter.workbook)
}.

#[export] Instance disk : Exporter.FileSystem Disk := {
  Exporter.mkdir_parent path d := (None, d);
  Exporter.wb_save wb path d :=
    if existsb (String.eqb path) (directories d) then
      (Some ("[Errno 21] Is a directory: '" ++ path ++ "'"), d)
    else
      (None, {| directories := directories d; workbooks := (path, wb) :: workbooks d |})
}.

Definition empty_disk : Disk := {| directories := []; workbooks := [] |}.

Definition ascii_upper (c : ascii) : ascii :=
  let n := N_of_ascii c in
  if ((97 <=? n) && (n <=? 122))%N then ascii_of_N (n - 32) else c.

Fixpoint upper_ascii (s : string) : string :=
  match s with
  | EmptyString => EmptyString
  | String c rest => String (ascii_upper c) (upper_ascii rest)
  end.

Definition is_scalar (v : value) : bool :=
  match v with
  | PList _ | PDict _ => false
  | _ => true
  end.

(** A runtime for the examples: it upper-cases the ASCII letters, renders
    no value, converts no timestamp, stores every scalar in a cell and has
    the default limit on digit strings. *)
Definition plain_runtime : Runtime :=
  {| str_upper := upper_ascii;
     py_str := fun _ => "";
     utc_isoformat := fun _ => None;
     cell_accepts := is_scalar;
     int_max_str_digits := 4300 |}.

End Doubles.

(** ** The scenarios of the test suite *)

Module Scenarios.

Import Client Doubles.

Definition company (id : string) : value := PDict [("id", PStr id)].

Definition page_of (items : list value) : value :=
  PDict [("success", PBool true); ("data", PList items)].

(** Pages of sizes 2, 1 and 0 *)
Definition three_pages : list value :=
  [ page_of [company "A"; company "B"]; page_of [company "C"]; page_of [] ].

(** A full page for page size 5 *)
Definition full_page : value :=
  page_of (map company ["0"; "1"; "2"; "3"; "4"]).

Definition endless (payload : value) : Endless :=
  {| reply := DummyResponse 200 payload; served := 0 |}.

Definition dry_run_reply (total : value) : value :=
  PDict [ ("success", PBool true); ("data", PList []);
          ("metadata", PDict [("total", total)]) ].

(** The record of the flattening test *)
Definition located : dict :=
  [ ("id", PStr "123");
    ("companyName", PStr "Example SRL");
    ("vatCode", PStr "01234567890");
    ("taxCode", PStr "01234567890");
    ("activityStatus", PStr "ATTIVA");
    ("cciaa", PStr "VR");
    ("reaCode", PStr "123456");
    ("address",
      PDict [("registeredOffice",
        PDict [ ("streetName", PStr "Via Roma 1");
                ("town", PStr "Verona");
                ("province", PStr "VR");
                ("zipCode", PStr "37100");
                ("gps", PDict [("coordinates", PList [PFloat 10.0; PFloat 45.0])]);
                ("region", PDict [("description", PStr "Veneto")]) ])]);
    ("atecoClassification",
      PDict [ ("ateco", PDict [ ("code", PStr "1071");
                                ("description", PStr "Produzione di pane") ]);
              ("secondaryAteco", PStr "107200");
              ("ateco2022", PDict [ ("code", PStr "1071");
                                    ("description", PStr "Pane") ]) ]);
    ("balanceSheets",
      PDict [("last",
        PDict [ ("turnover", PInt 1000000);
                ("turnoverYear", PInt 2023);
                ("turnoverRange", PDict [("description", PStr "500k-1M")]);
                ("shareCapital", PInt 50000);
                ("netWorth", PInt 120000);
                ("enterpriseSize", PDict [("description", PStr "Piccola")]) ])]);
    ("employees",
      PDict [ ("employee", PInt 12);
              ("employeeRange", PDict [("description", PStr "11-20")]);
              ("employeeTrend", PFloat 5.0) ]);
    ("pec", PStr "example@pec.it");
    ("sdiCode", PStr "ABCDE12") ].

Definition alpha : dict := [("id", PStr "1"); ("companyName", PStr "Alpha")].
Definition beta : dict := [("id", PStr "2"); ("companyName", PStr "Beta")].

(** A record whose [employees] entry is a head count, not a mapping *)
Definition head_count : dict := [("id", PStr "1"); ("employees", PInt 12)].

(** A record with coordinates and such a head count *)
Definition surveyed : dict :=
  [ ("id", PStr "1");
    ("address",
      PDict [("registeredOffice",
        PDict [("gps", PDict [("coordinates", PList [PFloat 10.0; PFloat 45.0])])])]);
    ("employees", PInt 12) ].

(** A record with two secondary codes *)
Definition two_trades : dict :=
  [ ("id", PStr "1");
    ("atecoClassification",
      PDict [("secondaryAteco", PList [PStr "107200"; PStr "107300"])]) ].

(** A disk where [reports] is a directory *)
Definition with_reports : Disk := {| directories := ["reports"]; workbooks := [] |}.

End Scenarios.

(** ** Shapes of payloads and records *)

(** The value the dry run reads as [metadata.total], when [metadata] is
    absent, falsy or a mapping; a missing [total] reads as [None]. *)
Definition metadata_total (payload : value) : option value :=
  match payload with
  | PDict d =>
      match por (dict_get d "metadata") (PDict []) with
      | PDict metadata => Some (dict_get metadata "total")
      | _ => None
      end
  | _ => None
  end.

(** [v or {}] is a mapping: [v] is one, or is falsy. *)
Definition mapping_or_falsy (v : value) : bool :=
  match v with
  | PDict _ => true
  | _ => negb (truthy v)
  end.

(** The entries of [v or {}] when it is a mapping. *)
Definition fields (v : value) : dict :=
  match v with
  | PDict d => d
  | _ => []
  end.

(** [coords[index]] behind the guard of [_safe_coordinate] *)
Definition coordinate (coords : value) (index : nat) : value :=
  match coords with
  | PList items => if (index <? List.length items)%nat then nth index items PNone else PNone
  | _ => PNone
  end.

(** The blocks of a record that [flatten_company_record] reads with [get]. *)
Definition registered_office (d : dict) : value :=
  dict_get (fields (dict_get d "address")) "registeredOffice".

Definition ecofin_block (d : dict) : value :=
  let last := dict_get (fields (dict_get d "balanceSheets")) "last" in
  if truthy last then last else dict_get d "ecofin".

(** Every block on the access paths of the flattener is absent, falsy or a
    mapping. *)
Definition well_shaped (d : dict) : bool :=
  let classification := dict_get d "atecoClassification" in
  forallb mapping_or_falsy
    [ dict_get d "address";
      registered_office d;
      dict_get (fields (registered_office d)) "gps";
      classification;
      dict_get (fields classification) "ateco";
      dict_get (fields classification) "ateco2022";
      dict_get d "balanceSheets";
      ecofin_block d;
      dict_get d "employees" ].

(** The fields of the flat record that come from the address. *)
Definition address_fields : list string :=
  [ "address"; "street_number"; "toponym"; "town"; "province"; "zip_code";
    "town_code"; "region"; "latitude"; "longitude" ].

Section Exportable.

Context {RT : Runtime}.

(** The cells of the data row of a flat record *)
Definition row_cells (row : dict) : list value :=
  map (dict_get row) Exporter.STANDARD_HEADERS.

(** The record flattens and openpyxl stores each of its cells. *)
Definition exportable_record (record : value) : bool :=
  match Exporter.flatten_company_record record with
  | Ok row => forallb cell_accepts (row_cells row)
  | Raise _ => false
  end.

Definition exportable (records : list value) : bool :=
  forallb cell_accepts (map PStr Exporter.STANDARD_HEADERS)
  && forallb exportable_record records.

End Exportable.

(** ** An upstream that serves a fixed result set *)

Module Upstream.

Import Client Doubles Scenarios.

(** The records of the result set and the number of requests answered. *)
Record Catalogue := {
  records : list value;
  requests : nat
}.

Definition query_nat (params : dict) (key : string) : nat :=
  match dict_lookup key params with
  | Some (PInt n) => Z.to_nat n
  | _ => 0%nat
  end.

(** Every request is answered with the slice of the result set that its
    [skip] and [limit] ask for. *)
#[export] Instance catalogue_session : Session Catalogue := {
  session_get s url params timeout :=
    let slice := firstn (query_nat params "limit")
                   (skipn (query_nat params "skip") (records s)) in
    (Ok (DummyResponse 200 (page_of slice)),
     {| records := records s; requests := S (requests s) |})
}.

End Upstream.

Section Serving.

Import Client.

Context {RT : Runtime} {St : Type} {SE : Session St}.

(** From every state that satisfies [reachable], the session answers a
    search at offset [n] with the slice of [db] that starts there and has at
    most the page size, and moves to such a state again. *)
Definition serves (reachable : St -> Prop) (self : client) (params : SearchParams)
    (db : list value) : Prop :=
  forall (n : nat) (s : St),
    reachable s ->
    exists d s',
      _get self "/IT-search" (as_query_params params (Z.of_nat n)) s = (Ok (PDict d), s')
      /\ reachable s'
      /\ dict_lookup "data" d
         = Some (PList (firstn (Z.to_nat (limit params)) (skipn n db))).

End Serving.

(** The fields of the flat record that copy a top-level key of the record,
    with that key. *)
Definition copied_fields : list (string * string) :=
  [ ("id", "id"); ("company_name", "companyName"); ("vat_code", "vatCode");
    ("tax_code", "taxCode"); ("activity_status", "activityStatus");
    ("cciaa", "cciaa"); ("rea_code", "reaCode"); ("start_date", "startDate");
    ("registration_date", "registrationDate"); ("pec", "pec");
    ("sdi_code", "sdiCode") ].

(** The fields that hold a timestamp of the record, converted. *)
Definition timestamp_fields : list (string * string) :=
  [ ("sdi_code_updated_at", "sdiCodeTimestamp");
    ("last_update_timestamp", "lastUpdateTimestamp");
    ("creation_timestamp", "creationTimestamp") ].

(** The fields read from the classification block, with their paths. *)
Definition classification_fields : list (string * list string) :=
  [ ("ateco_code", ["atecoClassification"; "ateco"; "code"]);
    ("ateco_description", ["atecoClassification"; "ateco"; "description"]);
    ("ateco_secondary", ["atecoClassification"; "secondaryAteco"]);
    ("ateco2022_code", ["atecoClassification"; "ateco2022"; "code"]);
    ("ateco2022_description", ["atecoClassification"; "ateco2022"; "description"]) ].

(** The fields read with [_nested_get] from the record itself. *)
Definition contact_fields : list (string * list string) :=
  [ ("website", ["webAndSocial"; "website"]);
    ("email", ["mail"; "email"]);
    ("telephone", ["contacts"; "telephoneNumber"]);
    ("fax", ["contacts"; "fax"]) ].

(** Following a path through blocks that are absent, falsy or mappings:
    [(v or {}).get(key)] at every step. *)
Fixpoint follow (v : value) (path : list string) : value :=
  match path with
  | [] => v
  | key :: path => follow (dict_get (fields v) key) path
  end.

(** The computation raises nothing but the AttributeError of a [get] on a
    value that has no such method. *)
Definition attribute_errors_only {A} (m : result A) : Prop :=
  forall e, m = Raise e -> exists ty, e = AttributeError ty "get".

(** ** cli.py *)

Module Cli.

(** The namespace that [build_parser().parse_args(argv)] returns. *)
Record args := {
  ateco : string;
  province : string;
  token : option string;
  output : string;
  limit : Z;
  max_records : option Z;
  activity_status : option string;
  data_enrichment : string;
  sandbox : bool;
  dry_run : bool
}.

(** What [main] prints, with the values it formats: the first two and the
    fourth go to the standard error, the others to the standard output.
    [Usage] is [parser.error(message)], which prints the usage and the
    message before it leaves. *)
Inductive event : Type :=
| Usage (message : string)
| DryRunFailed (exc : string)
| DryRunReport (total : Z) (ateco province : string)
| ExtractFailed (exc : string)
| Saved (count : Z) (ateco province output : string).

(** How [main] ends: it returns its exit code, it leaves through
    [SystemExit] ([parser.error] exits with status 2), an exception
    propagates to the caller, or the run needs more fuel. *)
Inductive ending : Type :=
| Returns (code : Z)
| SystemExit (code : Z)
| Propagates (e : exn)
| Unfinished.

Record outcome (FS : Type) := {
  ended : ending;
  printed : list event;
  files_after : FS
}.

Arguments ended {FS} o.
Arguments printed {FS} o.
Arguments files_after {FS} o.

(** [isinstance(exc, OpenAPIError)]: the class and its three subclasses. *)
Definition is_OpenAPIError (e : exn) : bool :=
  match e with
  | OpenAPIError _ | AuthenticationError _ | PaymentRequiredError _
  | ValidationError _ => true
  | _ => false
  end.

(** [str(exc)] for the exceptions that carry the message they were made with *)
Definition exn_text (e : exn) : string :=
  match e with
  | ValueError msg | OpenAPIError msg | AuthenticationError msg
  | PaymentRequiredError msg | ValidationError msg | TransportError msg
  | AssertionError msg => msg
  | _ => ""
  end.

(** The message of the missing token; its first letter is U+00C8, an E
    with a grave accent. *)
Definition token_message : string :=
  String (ascii_of_N 200)
    " necessario fornire un token OpenAPI tramite --token o la variabile d'ambiente OPENAPI_TOKEN.".

(** [args.token or os.environ.get("OPENAPI_TOKEN")] *)
Definition token_or_environ (flag environ : option string) : option string :=
  match flag with
  | Some t => if truthy (PStr t) then Some t else environ
  | None => environ
  end.

Section WithRuntime.

Context {RT : Runtime} {St : Type} {SE : Client.Session St}.
Context {FS : Type} {FI : Exporter.FileSystem FS}.

Definition leave (fs : FS) (message : string) : outcome FS :=
  {| ended := SystemExit 2; printed := [Usage message]; files_after := fs |}.

Definition propagate (fs : FS) (e : exn) : outcome FS :=
  {| ended := Propagates e; printed := []; files_after := fs |}.

(** [except OpenAPIError as exc: print(...); return 1], or the exception
    goes on. *)
Definition handle (fs : FS) (report : string -> event) (e : exn) : outcome FS :=
  if is_OpenAPIError e then
    {| ended := Returns 1; printed := [report (exn_text e)]; files_after := fs |}
  else propagate fs e.

(** [main], from the parsed arguments on. [environ] is the value of
    OPENAPI_TOKEN, [s] the state of the HTTP session the client opens and
    [fs] the file system before the call. The export consumes the generator
    record by record, so an exception of the flattening comes before the
    end of the generator, and both come before the file system is touched. *)
Definition main (fuel : nat) (a : args) (environ : option string) (s : St)
    (fs : FS) : outcome FS :=
  match token_or_environ (token a) environ with
  | None => leave fs token_message
  | Some tok =>
      if negb (truthy (PStr tok)) then leave fs token_message
      else
        match Client.sanitize_ateco_code (ateco a) with
        | Raise (ValueError msg) => leave fs msg
        | Raise e => propagate fs e
        | Ok sanitized_ateco =>
            match Client.new_client tok (sandbox a) 30 with
            | Raise e => propagate fs e
            | Ok client =>
                if dry_run a then
                  match fst (Client.dry_run_count client (province a) sanitized_ateco
                               (activity_status a) s) with
                  | Raise e => handle fs DryRunFailed e
                  | Ok total =>
                      {| ended := Returns 0;
                         printed := [DryRunReport total sanitized_ateco
                                       (str_upper (province a))];
                         files_after := fs |}
                  end
                else
                  let records :=
                    Client.search_companies fuel client (province a) sanitized_ateco
                      (data_enrichment a) (limit a) (max_records a)
                      (activity_status a) s in
                  match Exporter.flatten_all (Client.yielded records) with
                  | Raise e => handle fs ExtractFailed e
                  | Ok _ =>
                      match Client.outcome records with
                      | Client.Raised e => handle fs ExtractFailed e
                      | Client.OutOfFuel =>
                          {| ended := Unfinished; printed := []; files_after := fs |}
                      | Client.Finished =>
                          match Exporter.export_to_excel (Client.yielded records)
                                  (output a) fs with
                          | (Raise e, fs') => handle fs' ExtractFailed e
                          | (Ok count, fs') =>
                              {| ended := Returns 0;
                                 printed := [Saved count sanitized_ateco
                                               (str_upper (province a)) (output a)];
                                 files_after := fs' |}
                          end
                      end
                  end
            end
        end
  end.

End WithRuntime.

End Cli.

(** ** More scenarios *)

Module Cases.

Import Client Doubles Scenarios.

(** A result set of seven records and the upstream that serves it *)
Definition seven : list value :=
  map company ["0"; "1"; "2"; "3"; "4"; "5"; "6"].

Definition shop : Upstream.Catalogue :=
  {| Upstream.records := seven; Upstream.requests := 0 |}.

Definition sandbox_client : client :=
  {| base_url := SANDBOX_BASE_URL; timeout := 30 |}.

(** An upstream that refuses the token, for ever *)
Definition unauthorized : Endless :=
  {| reply := DummyResponse 401 PNone; served := 0 |}.

(** [--ateco 10.71 --province vr --token secret --limit 3 --sandbox] *)
Definition search_args : Cli.args :=
  {| Cli.ateco := "10.71"; Cli.province := "vr"; Cli.token := Some "secret";
     Cli.output := "companies.xlsx"; Cli.limit := 3; Cli.max_records := None;
     Cli.activity_status := None; Cli.data_enrichment := "Advanced";
     Cli.sandbox := true; Cli.dry_run := false |}.


(** The same with [--output reports] *)
Definition reports_args : Cli.args :=
  {| Cli.ateco := "10.71"; Cli.province := "vr"; Cli.token := Some "secret";
     Cli.output := "reports"; Cli.limit := 3; Cli.max_records := None;
     Cli.activity_status := None; Cli.data_enrichment := "Advanced";
     Cli.sandbox := true; Cli.dry_run := false |}.

(** The same with [--dry-run] *)
Definition dry_run_args : Cli.args :=
  {| Cli.ateco := "10.71"; Cli.province := "vr"; Cli.token := Some "secret";
     Cli.output := "companies.xlsx"; Cli.limit := 3; Cli.max_records := None;
     Cli.activity_status := None; Cli.data_enrichment := "Advanced";
     Cli.sandbox := true; Cli.dry_run := true |}.

End Cases.

(** * Properties of the client *)

Section ClientFacts.

Import Client.

Context {RT : Runtime} {St : Type} {SE : Session St}.

Lemma str_filter_as_list (p : ascii -> bool) (s : string) :
  list_ascii_of_string (str_filter p s) = filter p (list_ascii_of_string s).
Proof.
  induction s as [|c s IH]; simpl; [reflexivity|].
  destruct (p c); simpl; now rewrite IH.
Qed.

Lemma str_filter_none (p : ascii -> bool) (s : string) :
  (forall c, str_in c s -> p c = false) -> str_filter p s = "".
Proof.
  induction s as [|c s IH]; simpl; intros H; [reflexivity|].
  rewrite (H c (or_introl eq_refl)). apply IH. intros c' Hc'. apply H. now right.
Qed.

Lemma str_filter_some (p : ascii -> bool) (s : string) (c : ascii) :
  str_in c s -> p c = true -> str_filter p s <> "".
Proof.
  induction s as [|c' s IH]; simpl; intros Hin Hp; [contradiction|].
  destruct Hin as [-> | Hin].
  - rewrite Hp. discriminate.
  - destruct (p c'); [discriminate | now apply IH].
Qed.

Lemma truthy_str (s : string) : truthy (PStr s) = false <-> s = "".
Proof.
  simpl. destruct (String.eqb_spec s ""); simpl; split; congruence.
Qed.

(** C6. A code with at least one digit character is sanitized to its digit
    characters, in their order (the filter of its character list); an empty
    code and a code with no digit character raise ValueError. *)
Theorem sanitize_ateco_code_digits (code : string) :
  ((exists c, str_in c code /\ isdigit c = true) ->
     sanitize_ateco_code code = Ok (str_filter isdigit code) /\
     list_ascii_of_string (str_filter isdigit code)
       = filter isdigit (list_ascii_of_string code))
  /\ ((code = "" \/ forall c, str_in c code -> isdigit c = false) ->
     exists msg, sanitize_ateco_code code = Raise (ValueError msg)).
Proof.
  split.
  - intros (c & Hin & Hd). split; [|apply str_filter_as_list].
    unfold sanitize_ateco_code.
    destruct (truthy (PStr code)) eqn:Hc.
    + destruct (truthy (PStr (str_filter isdigit code))) eqn:Hf; [reflexivity|].
      apply truthy_str in Hf. now apply (str_filter_some _ _ _ Hin Hd) in Hf.
    + apply truthy_str in Hc. subst code. destruct Hin.
  - intros H. unfold sanitize_ateco_code.
    destruct (truthy (PStr code)) eqn:Hc; simpl negb; cbv iota; [|eauto].
    destruct H as [-> | H]; [discriminate Hc|].
    rewrite (str_filter_none _ _ H). simpl. eauto.
Qed.

Lemma get_inv (self : client) (path : string) (params : dict) (s s' : St)
    (payload : value) :
  _get self path params s = (Ok payload, s') ->
  exists r, session_get s (base_url self ++ path) params (timeout self) = (Ok r, s')
            /\ validate r = Ok payload.
Proof.
  unfold _get, io_bind, lift.
  destruct (session_get s (base_url self ++ path) params (timeout self)) as [[r|e] s1];
    intros H; inversion H; subst. eauto.
Qed.

Lemma get_intro (self : client) (path : string) (params : dict) (s s' : St)
    (r : response) :
  session_get s (base_url self ++ path) params (timeout self) = (Ok r, s') ->
  _get self path params s = (validate r, s').
Proof.
  intros H. unfold _get, io_bind, lift. rewrite H. now destruct (validate r).
Qed.

(** A payload that passed the validation is a mapping whose [success] is
    truthy. *)
Lemma validate_ok (r : response) (payload : value) :
  validate r = Ok payload ->
  exists d, payload = PDict d
            /\ truthy (dict_get_default d "success" (PBool false)) = true.
Proof.
  unfold validate.
  destruct (status_code r =? 401); [discriminate|].
  destruct (status_code r =? 402); [discriminate|].
  destruct (status_code r =? 422); [discriminate|].
  destruct (is_http_error (status_code r)); [discriminate|].
  destruct (body r) as [v|]; [|discriminate].
  destruct v; simpl; try discriminate.
  destruct (truthy (dict_get_default entries "success" (PBool false))) eqn:E; simpl.
  - intros H; inversion H; subst. eauto.
  - discriminate.
Qed.

Lemma query_limit (p : SearchParams) (skip : Z) :
  dict_lookup "limit" (as_query_params p skip) = Some (PInt (limit p)).
Proof. reflexivity. Qed.

Lemma query_skip (p : SearchParams) (skip : Z) :
  dict_lookup "skip" (as_query_params p skip) = Some (PInt skip).
Proof. reflexivity. Qed.

(** C3, as the code has it. A page size of at least 1 is capped at 100: the
    [SearchParams] limit, which every query carries, is [min(limit, 100)]
    and lies in [1, 100]. A page size below 1 is not raised to 1: the call
    fails with ValueError before any request is made. *)
Theorem search_params_limit (province code enrichment : string) (lim : Z)
    (status : option string) :
  (1 <= lim ->
   forall digits, sanitize_ateco_code code = Ok digits ->
     exists p,
       search_params province code enrichment lim status = Ok p
       /\ limit p = Z.min lim 100
       /\ 1 <= limit p <= 100
       /\ forall skip,
            dict_lookup "limit" (as_query_params p skip) = Some (PInt (Z.min lim 100)))
  /\ (lim <= 0 ->
      search_params province code enrichment lim status
        = Raise (ValueError "limit must be greater than zero")
      /\ forall fuel self max_records (s : St),
           search_companies fuel self province code enrichment lim max_records status s
             = stop [] [] (Raised (ValueError "limit must be greater than zero")) s).
Proof.
  split.
  - intros Hlim digits Hd. unfold search_params.
    destruct (Z.leb_spec lim 0) as [H|_]; [lia|].
    rewrite Hd. simpl. eexists. split; [reflexivity|]. simpl.
    split; [reflexivity|]. split; [lia|]. intros skip. reflexivity.
  - intros Hlim.
    assert (E : search_params province code enrichment lim status
                = Raise (ValueError "limit must be greater than zero")).
    { unfold search_params. destruct (Z.leb_spec lim 0) as [_|H]; [reflexivity|lia]. }
    split; [exact E|]. intros. unfold search_companies. now rewrite E.
Qed.

(** C9. A reply with a successful status whose JSON object has no [success]
    key is refused like a reported failure: [_get] raises OpenAPIError with
    the body's message, or with "Unknown error" when there is none, exactly
    as for the same body with [success] set to false. *)
Theorem get_without_success_flag (self : client) (path : string) (params : dict)
    (s s' : St) (r : response) (d : dict) :
  session_get s (base_url self ++ path) params (timeout self) = (Ok r, s') ->
  is_http_error (status_code r) = false ->
  body r = Some (PDict d) ->
  dict_lookup "success" d = None ->
  _get self path params s
    = (Raise (OpenAPIError ("OpenAPI reported an error: "
                            ++ fmt (por (dict_get d "message") (PStr "Unknown error")))),
       s')
  /\ validate r
     = validate {| status_code := status_code r; text := text r;
                   error_text := error_text r;
                   body := Some (PDict (("success", PBool false) :: d)) |}
  /\ (dict_lookup "message" d = None ->
      _get self path params s
        = (Raise (OpenAPIError "OpenAPI reported an error: Unknown error"), s')).
Proof.
  intros Hs Hst Hb Hd.
  assert (H401 : (status_code r =? 401) = false).
  { destruct (Z.eqb_spec (status_code r) 401) as [E|]; [|reflexivity].
    rewrite E in Hst. discriminate. }
  assert (H402 : (status_code r =? 402) = false).
  { destruct (Z.eqb_spec (status_code r) 402) as [E|]; [|reflexivity].
    rewrite E in Hst. discriminate. }
  assert (H422 : (status_code r =? 422) = false).
  { destruct (Z.eqb_spec (status_code r) 422) as [E|]; [|reflexivity].
    rewrite E in Hst. discriminate. }
  assert (Hv : validate r
               = Raise (OpenAPIError ("OpenAPI reported an error: "
                   ++ fmt (por (dict_get d "message") (PStr "Unknown error"))))).
  { unfold validate. rewrite H401, H402, H422, Hst, Hb.
    unfold get_default, dict_get_default. rewrite Hd. reflexivity. }
  split; [|split].
  - rewrite (get_intro _ _ _ _ _ _ Hs). now rewrite Hv.
  - rewrite Hv. unfold validate. simpl. rewrite H401, H402, H422, Hst. reflexivity.
  - intros Hm. rewrite (get_intro _ _ _ _ _ _ Hs), Hv.
    unfold dict_get, dict_get_default. rewrite Hm. reflexivity.
Qed.

Lemma page_of_list (params : SearchParams) (max_records : option Z) (fetched : Z)
    (d : dict) (item : value) (items : list value) :
  dict_lookup "data" d = Some (PList (item :: items)) ->
  page params max_records fetched (PDict d)
  = let '(ys, fetched', returned) := yield_items max_records (item :: items) fetched in
    if returned then PageStop ys Finished
    else if Z.of_nat (List.length (item :: items)) <? limit params
         then PageStop ys Finished
         else PageNext ys fetched'.
Proof.
  intros H. unfold page, get_default, dict_get_default. rewrite H. reflexivity.
Qed.

Lemma pages_step (fuel : nat) (self : client) (params : SearchParams)
    (max_records : option Z) (fetched skip : Z) (s s' : St) (payload : value) :
  _get self "/IT-search" (as_query_params params skip) s = (Ok payload, s') ->
  pages (S fuel) self params max_records fetched skip s
  = match page params max_records fetched payload with
    | PageStop ys e => stop ys [as_query_params params skip] e s'
    | PageNext ys fetched' =>
        after_page ys (as_query_params params skip)
          (pages fuel self params max_records fetched' (skip + limit params) s')
    end.
Proof. intros H. simpl. rewrite H. reflexivity. Qed.

Lemma search_companies_start (fuel : nat) (self : client)
    (province code enrichment digits : string) (lim : Z)
    (max_records : option Z) (status : option string) (s : St) :
  0 < lim ->
  sanitize_ateco_code code = Ok digits ->
  search_companies fuel self province code enrichment lim max_records status s
  = pages fuel self
      {| province := province; ateco_code := digits;
         data_enrichment := enrichment; limit := Z.min lim 100;
         activity_status := status; dry_run := false |}
      max_records 0 0 s.
Proof.
  intros Hl Hc. unfold search_companies, search_params.
  destruct (Z.leb_spec lim 0); [lia|]. rewrite Hc. reflexivity.
Qed.

(** C10. A validated page without a [data] key is an empty page: the loop
    is left normally and this turn yields nothing, so the run ends with the
    records yielded before it. The loop body raises only the structural
    error, and it raises it exactly when [data] is present and not a list. *)
Theorem page_without_data (params : SearchParams) (max_records : option Z)
    (fetched : Z) (d : dict) :
  (dict_lookup "data" d = None ->
     page params max_records fetched (PDict d) = PageStop [] Finished
     /\ forall fuel self skip (s s' : St),
          _get self "/IT-search" (as_query_params params skip) s = (Ok (PDict d), s') ->
          pages (S fuel) self params max_records fetched skip s
            = stop [] [as_query_params params skip] Finished s')
  /\ (forall ys e,
       page params max_records fetched (PDict d) = PageStop ys (Raised e) ->
       ys = [] /\ e = OpenAPIError structure_message
       /\ exists v, dict_lookup "data" d = Some v /\ forall items, v <> PList items)
  /\ (forall v, dict_lookup "data" d = Some v -> (forall items, v <> PList items) ->
       page params max_records fetched (PDict d)
         = PageStop [] (Raised (OpenAPIError structure_message))).
Proof.
  split; [|split].
  - intros H.
    assert (E : page params max_records fetched (PDict d) = PageStop [] Finished).
    { unfold page, get_default, dict_get_default. rewrite H. reflexivity. }
    split; [exact E|]. intros fuel self skip s s' Hg.
    rewrite (pages_step _ _ _ _ _ _ _ _ _ Hg), E. reflexivity.
  - intros ys e. unfold page, get_default, dict_get_default.
    destruct (dict_lookup "data" d) as [v|] eqn:Hd; [|discriminate].
    destruct v as [| | | | |items|]; try (intros H; inversion H; subst;
      repeat split; eexists; split; [reflexivity | discriminate]).
    destruct items as [|item items]; [discriminate|].
    cbv beta iota. simpl truthy. cbv beta iota. simpl negb. cbv iota.
    destruct (yield_items max_records (item :: items) fetched) as [[zs f] ret].
    destruct ret; [discriminate|].
    destruct (Z.of_nat (List.length (item :: items)) <? limit params); discriminate.
  - intros v Hd Hv. unfold page, get_default, dict_get_default. rewrite Hd.
    destruct v; try reflexivity. now elim (Hv items).
Qed.

(** C1. With page size 2, when the first page holds two records and the
    second holds one, the drained generator yields the three records in
    that order and ends normally after two requests (offsets 0 and 2): the
    short page ends it, so no later page of the upstream is asked for. *)
Theorem search_companies_ends_on_short_page (fuel : nat) (self : client)
    (province code enrichment digits : string) (status : option string)
    (s0 s1 s2 : St) (d1 d2 : dict) (a b c : value) :
  let params := {| province := province; ateco_code := digits;
                   data_enrichment := enrichment; limit := 2;
                   activity_status := status; dry_run := false |} in
  sanitize_ateco_code code = Ok digits ->
  _get self "/IT-search" (as_query_params params 0) s0 = (Ok (PDict d1), s1) ->
  dict_lookup "data" d1 = Some (PList [a; b]) ->
  _get self "/IT-search" (as_query_params params 2) s1 = (Ok (PDict d2), s2) ->
  dict_lookup "data" d2 = Some (PList [c]) ->
  search_companies (2 + fuel) self province code enrichment 2 None status s0
  = {| yielded := [a; b; c];
       queries := [as_query_params params 0; as_query_params params 2];
       outcome := Finished;
       session_after := s2 |}.
Proof.
  intros params Hc H1 Hd1 H2 Hd2.
  rewrite search_companies_start with (digits := digits) by (lia || assumption).
  change (Z.min 2 100) with 2. fold params.
  change (2 + fuel)%nat with (S (S fuel)).
  rewrite (pages_step _ _ _ _ _ _ _ _ _ H1), (page_of_list _ _ _ _ _ _ Hd1).
  simpl. change (0 + 2) with 2.
  rewrite H2. unfold page, get_default, dict_get_default. rewrite Hd2.
  reflexivity.
Qed.

(** C2. With page size 5 and a cap of 6 records, when the first two pages
    hold five records each, the drained generator yields six records (the
    first page and the first record of the second) and ends normally after
    exactly two requests, whatever the upstream would serve next. *)
Theorem search_companies_stops_at_cap (fuel : nat) (self : client)
    (province code enrichment digits : string) (status : option string)
    (s0 s1 s2 : St) (d1 d2 : dict) (page1 page2 : list value) :
  let params := {| province := province; ateco_code := digits;
                   data_enrichment := enrichment; limit := 5;
                   activity_status := status; dry_run := false |} in
  sanitize_ateco_code code = Ok digits ->
  _get self "/IT-search" (as_query_params params 0) s0 = (Ok (PDict d1), s1) ->
  dict_lookup "data" d1 = Some (PList page1) -> List.length page1 = 5%nat ->
  _get self "/IT-search" (as_query_params params 5) s1 = (Ok (PDict d2), s2) ->
  dict_lookup "data" d2 = Some (PList page2) -> List.length page2 = 5%nat ->
  let r := search_companies (2 + fuel) self province code enrichment 5 (Some 6)
             status s0 in
  yielded r = (page1 ++ firstn 1 page2)%list
  /\ List.length (yielded r) = 6%nat
  /\ queries r = [as_query_params params 0; as_query_params params 5]
  /\ outcome r = Finished
  /\ session_after r = s2.
Proof.
  intros params Hc H1 Hd1 L1 H2 Hd2 L2.
  destruct page1 as [|a1 [|a2 [|a3 [|a4 [|a5 [|]]]]]]; try discriminate L1.
  destruct page2 as [|b1 [|b2 [|b3 [|b4 [|b5 [|]]]]]]; try discriminate L2.
  intros r. subst r.
  rewrite search_companies_start with (digits := digits) by (lia || assumption).
  change (Z.min 5 100) with 5. fold params.
  change (2 + fuel)%nat with (S (S fuel)).
  rewrite (pages_step _ _ _ _ _ _ _ _ _ H1), (page_of_list _ _ _ _ _ _ Hd1).
  simpl. change (0 + 5) with 5.
  rewrite H2. unfold page, get_default, dict_get_default. rewrite Hd2.
  simpl. repeat split; reflexivity.
Qed.

Lemma read_total_cases (payload total : value) :
  metadata_total payload = Some total ->
  read_total payload
  = match as_int total with
    | Some n => Ok n
    | None =>
        match total with
        | PStr str =>
            if str_isdigit str then int_of_digits str
            else Raise (OpenAPIError total_message)
        | _ => Raise (OpenAPIError total_message)
        end
    end.
Proof.
  destruct payload as [| | | | | |d]; try discriminate.
  unfold metadata_total, read_total. simpl get at 1. simpl bind.
  destruct (por (dict_get d "metadata") (PDict [])); try discriminate.
  intros H; inversion H; subst. reflexivity.
Qed.

Lemma dry_run_count_reads (self : client) (province code digits : string)
    (status : option string) (s s' : St) (payload : value) :
  sanitize_ateco_code code = Ok digits ->
  _get self "/IT-search"
    (as_query_params {| province := province; ateco_code := digits;
                        data_enrichment := ""; limit := 1;
                        activity_status := status; dry_run := true |} 0) s
    = (Ok payload, s') ->
  dry_run_count self province code status s = (read_total payload, s').
Proof.
  intros Hc Hg. unfold dry_run_count, io_bind, lift at 1. rewrite Hc.
  cbv beta iota. rewrite Hg. reflexivity.
Qed.

Lemma isdecimal_isdigit (str : string) :
  str_all isdecimal str = true -> str_all isdigit str = true.
Proof.
  induction str as [|c str IH]; simpl; [reflexivity|].
  intros H. apply andb_true_iff in H as [Hc H]. rewrite (IH H), andb_true_r.
  unfold isdigit. unfold isdecimal in Hc. now rewrite Hc.
Qed.

(** C5, as the code has it. On a validated response whose [metadata] is
    absent, falsy or a mapping, the dry run returns [total] when it is an
    integer (a bool counts as one) and [int(total)] when it is a string
    that passes [isdigit]: the decimal value of a non-empty string of
    decimal digits within the interpreter's length limit. It raises the
    structural error exactly when [total] is absent or is neither an
    integer nor a string that passes [isdigit], so a float such as 42.0 is
    refused. A [total] of 42 gives 42. *)
Theorem dry_run_count_total (self : client) (province code digits : string)
    (status : option string) (s s' : St) (payload total : value) :
  sanitize_ateco_code code = Ok digits ->
  _get self "/IT-search"
    (as_query_params {| province := province; ateco_code := digits;
                        data_enrichment := ""; limit := 1;
                        activity_status := status; dry_run := true |} 0) s
    = (Ok payload, s') ->
  metadata_total payload = Some total ->
  (forall n,
     dry_run_count self province code status s = (Ok n, s')
     <-> (as_int total = Some n
          \/ exists str, total = PStr str /\ str_isdigit str = true
                         /\ int_of_digits str = Ok n))
  /\ (forall str,
       total = PStr str -> str <> "" -> str_all isdecimal str = true ->
       within_int_limit str = true ->
       dry_run_count self province code status s = (Ok (decimal_acc 0 str), s'))
  /\ (dry_run_count self province code status s
       = (Raise (OpenAPIError total_message), s')
     <-> (as_int total = None
          /\ forall str, total = PStr str -> str_isdigit str = false))
  /\ (total = PInt 42 -> dry_run_count self province code status s = (Ok 42, s'))
  /\ (total = PNone ->
      dry_run_count self province code status s
        = (Raise (OpenAPIError total_message), s')).
Proof.
  intros Hc Hg Hm.
  rewrite (dry_run_count_reads _ _ _ _ _ _ _ _ Hc Hg), (read_total_cases _ _ Hm).
  split; [|split; [|split; [|split]]].
  - intros n. destruct total; simpl; split;
      try (intros H; inversion H; subst; now left);
      try (intros [H | (str & H & _)]; congruence).
    + destruct (str_isdigit s0) eqn:Hd; [|discriminate].
      intros H. right. exists s0. split; [reflexivity|]. split; [exact Hd|].
      congruence.
    + intros [H | (str & H & Hd & Hn)]; [discriminate|].
      inversion H; subst str. now rewrite Hd, Hn.
  - intros str -> Hne Hd Hl. simpl.
    assert (D : str_isdigit str = true).
    { unfold str_isdigit. rewrite (isdecimal_isdigit _ Hd), andb_true_r.
      destruct (String.eqb_spec str ""); [contradiction | reflexivity]. }
    rewrite D. unfold int_of_digits. now rewrite Hd, Hl.
  - destruct total; simpl; split;
      try (intros _; split; [reflexivity | discriminate]);
      try reflexivity; try discriminate; try (intros [H _]; discriminate).
    + destruct (str_isdigit s0) eqn:Hd.
      * unfold int_of_digits.
        destruct (str_all isdecimal s0 && within_int_limit s0); discriminate.
      * intros _. split; [reflexivity|]. intros str H. inversion H; subst. exact Hd.
    + intros [_ H]. now rewrite (H s0 eq_refl).
  - intros ->. reflexivity.
  - intros ->. reflexivity.
Qed.

End ClientFacts.

(** * Properties of the exporter *)

Section ExporterFacts.

Import Exporter.

Context {RT : Runtime}.

Lemma por_fields (v : value) :
  mapping_or_falsy v = true -> por v (PDict []) = PDict (fields v).
Proof.
  unfold por, mapping_or_falsy.
  destruct v as [| | | | | |d];
    try (destruct (truthy _); simpl; intros H; (reflexivity || discriminate)).
  now destruct d.
Qed.

Lemma truthy_mapping (v : value) :
  mapping_or_falsy v = true -> truthy v = true -> v = PDict (fields v).
Proof.
  unfold mapping_or_falsy. destruct v; intros H T; try reflexivity;
    rewrite T in H; discriminate H.
Qed.

Lemma dict_get_found (d : dict) (key : string) (v : value) :
  dict_lookup key d = Some v -> dict_get d key = v.
Proof. unfold dict_get, dict_get_default. now intros ->. Qed.

Lemma dict_get_missing (d : dict) (key : string) :
  dict_lookup key d = None -> dict_get d key = PNone.
Proof. unfold dict_get, dict_get_default. now intros ->. Qed.

Lemma safe_coordinate_ok (address : dict) (index : nat) :
  mapping_or_falsy (dict_get address "gps") = true ->
  _safe_coordinate (PDict address) index
  = Ok (coordinate (dict_get (fields (dict_get address "gps")) "coordinates") index).
Proof.
  intros H. unfold _safe_coordinate. cbn [get bind]. rewrite (por_fields _ H).
  cbn [get bind]. unfold coordinate.
  destruct (dict_get (fields (dict_get address "gps")) "coordinates"); try reflexivity.
  now destruct (index <? List.length items)%nat.
Qed.

Lemma bind_ok_inv {A B} (m : result A) (k : A -> result B) (b : B) :
  bind m k = Ok b -> exists a, m = Ok a /\ k a = Ok b.
Proof. destruct m; simpl; [eauto | discriminate]. Qed.

Lemma display_keys (fs : list (string * result value)) (row : dict) :
  display fs = Ok row -> map fst row = map fst fs.
Proof.
  revert row. induction fs as [|[k m] fs IH]; simpl; intros row H.
  - now inversion H.
  - apply bind_ok_inv in H as (v & _ & H).
    apply bind_ok_inv in H as (rest & Hr & H).
    inversion H; subst. simpl. now rewrite (IH rest Hr).
Qed.

Lemma display_first (k : string) (m : result value) (fs : list (string * result value))
    (row : dict) :
  display ((k, m) :: fs) = Ok row -> m = Ok (dict_get row k).
Proof.
  simpl. intros H.
  apply bind_ok_inv in H as (v & -> & H).
  apply bind_ok_inv in H as (rest & _ & H).
  inversion H; subst. unfold dict_get, dict_get_default. simpl.
  now rewrite String.eqb_refl.
Qed.

(** A record that flattens is a mapping; its flat record has the standard
    keys, in order, and carries the record's [id]. *)
Lemma flatten_ok_id (record : value) (row : dict) :
  flatten_company_record record = Ok row ->
  map fst row = STANDARD_HEADERS
  /\ dict_get row "id" = dict_get (fields record) "id"
  /\ record = PDict (fields record).
Proof.
  unfold flatten_company_record. intros H.
  destruct record as [| | | | | |d]; try discriminate H.
  do 12 (apply bind_ok_inv in H as (? & _ & H)).
  split; [|split; [|reflexivity]].
  - apply display_keys in H. exact H.
  - apply display_first in H. cbn [get fields] in *. now inversion H.
Qed.

Lemma forallb_cons_true {A} (f : A -> bool) (x : A) (l : list A) :
  forallb f (x :: l) = true -> f x = true /\ forallb f l = true.
Proof. simpl. intros H. now apply andb_true_iff in H. Qed.

Lemma get_mapping (v : value) (key : string) :
  mapping_or_falsy v = true -> truthy v = true ->
  get v key = Ok (dict_get (fields v) key).
Proof. intros H T. now rewrite (truthy_mapping v H T) at 1. Qed.

(** A well-shaped record flattens: the flat record has the standard keys,
    and its address fields are read from the registered office. *)
Lemma flatten_well_shaped (d : dict) :
  well_shaped d = true ->
  let office := fields (registered_office d) in
  exists flat,
    flatten_company_record (PDict d) = Ok flat
    /\ map fst flat = STANDARD_HEADERS
    /\ dict_get flat "id" = dict_get d "id"
    /\ map (dict_get flat) address_fields
       = [ dict_get office "streetName"; dict_get office "streetNumber";
           dict_get office "toponym"; dict_get office "town";
           dict_get office "province"; dict_get office "zipCode";
           dict_get office "townCode";
           _nested_get (PDict office) ["region"; "description"];
           coordinate (dict_get (fields (dict_get office "gps")) "coordinates") 1;
           coordinate (dict_get (fields (dict_get office "gps")) "coordinates") 0 ].
Proof.
  unfold well_shaped, registered_office, ecofin_block. intros H.
  apply forallb_cons_true in H as [Ha H]. apply forallb_cons_true in H as [Ho H].
  apply forallb_cons_true in H as [Hg H]. apply forallb_cons_true in H as [Hc H].
  apply forallb_cons_true in H as [Hc1 H]. apply forallb_cons_true in H as [Hc2 H].
  apply forallb_cons_true in H as [Hb H]. apply forallb_cons_true in H as [H7 H].
  apply forallb_cons_true in H as [He _].
  unfold flatten_company_record. cbn [get bind].
  repeat (first [ rewrite (por_fields _ Ha) | rewrite (por_fields _ Ho)
                | rewrite (por_fields _ Hc) | rewrite (por_fields _ Hc1)
                | rewrite (por_fields _ Hc2) | rewrite (por_fields _ Hb)
                | rewrite (por_fields _ He) ]; cbn [get bind]).
  rewrite !(safe_coordinate_ok _ _ Hg).
  destruct (truthy (dict_get (fields (dict_get d "balanceSheets")) "last")) eqn:T;
    cbn [bind].
  - rewrite !(get_mapping _ _ H7 T). cbn [bind].
    destruct (truthy (dict_get (fields (dict_get d "employees")) "employee"));
      cbn [display bind]; eexists; (split; [reflexivity|]);
      repeat split; reflexivity.
  - rewrite (por_fields _ H7). cbn [get bind].
    destruct (truthy (dict_get (fields (dict_get d "employees")) "employee"));
      cbn [display bind]; eexists; (split; [reflexivity|]);
      repeat split; reflexivity.
Qed.

Lemma get_por_inv (v : value) (key : string) :
  is_ok (get (por v (PDict [])) key) = true -> mapping_or_falsy v = true.
Proof.
  unfold por, mapping_or_falsy. destruct v; try reflexivity;
    destruct (truthy _); simpl; (reflexivity || discriminate).
Qed.

Lemma get_inv_mapping (v : value) (key : string) :
  is_ok (get v key) = true -> mapping_or_falsy v = true.
Proof. destruct v; simpl; (reflexivity || discriminate). Qed.

Lemma is_ok_bind {A B} (m : result A) (k : A -> result B) :
  is_ok (bind m k) = true -> is_ok m = true.
Proof. destruct m; simpl; (reflexivity || discriminate). Qed.

Lemma is_ok_eq {A} (m : result A) (a : A) : m = Ok a -> is_ok m = true.
Proof. now intros ->. Qed.

Lemma display_all_ok (fs : list (string * result value)) (row : dict) :
  display fs = Ok row -> forall k m, In (k, m) fs -> is_ok m = true.
Proof.
  revert row. induction fs as [|[k0 m0] fs IH]; simpl; intros row H k m Hin.
  - destruct Hin.
  - apply bind_ok_inv in H as (v & Hv & H).
    apply bind_ok_inv in H as (rest & Hr & _).
    destruct Hin as [E | Hin].
    + inversion E; subst. reflexivity.
    + exact (IH rest Hr k m Hin).
Qed.

Ltac entry := cbn [In]; repeat (first [left; reflexivity | right]).

Lemma flatten_ok_well_shaped (d flat : dict) :
  flatten_company_record (PDict d) = Ok flat -> well_shaped d = true.
Proof.
  intros H. unfold flatten_company_record in H. cbn [get bind] in H.
  pose proof (is_ok_bind _ _ (is_ok_eq _ _ H)) as Ha. apply get_por_inv in Ha.
  rewrite (por_fields _ Ha) in H. cbn [get bind] in H.
  pose proof (is_ok_bind _ _ (is_ok_eq _ _ H)) as Hc. apply get_por_inv in Hc.
  rewrite (por_fields _ Hc) in H. cbn [get bind] in H.
  pose proof (is_ok_bind _ _ (is_ok_eq _ _ H)) as Hb. apply get_por_inv in Hb.
  rewrite (por_fields _ Hb) in H. cbn [get bind] in H.
  assert (E : exists fs,
             display fs = Ok flat
             /\ In ("address",
                    get (por (registered_office d) (PDict [])) "streetName") fs
             /\ In ("latitude",
                    _safe_coordinate (por (registered_office d) (PDict [])) 1) fs
             /\ In ("ateco_code",
                    get (por (dict_get (fields (dict_get d "atecoClassification"))
                                "ateco") (PDict [])) "code") fs
             /\ In ("ateco2022_code",
                    get (por (dict_get (fields (dict_get d "atecoClassification"))
                                "ateco2022") (PDict [])) "code") fs
             /\ In ("employee_trend",
                    get (por (dict_get d "employees") (PDict [])) "employeeTrend") fs
             /\ (In ("turnover", get (ecofin_block d) "turnover") fs
                 \/ (truthy (dict_get (fields (dict_get d "balanceSheets")) "last") = false
                     /\ In ("turnover",
                            get (por (dict_get d "ecofin") (PDict [])) "turnover") fs))).
  { unfold registered_office, ecofin_block.
    destruct (truthy (dict_get (fields (dict_get d "balanceSheets")) "last")) eqn:T;
      cbn [bind] in H; eexists; (split; [exact H|]);
      repeat (split; [entry|]); [left | right; split; [reflexivity|]]; entry. }
  destruct E as (fs & D & Io & Ig & Ic1 & Ic2 & Ie & I7).
  pose proof (display_all_ok _ _ D) as A.
  pose proof (get_por_inv _ _ (A _ _ Io)) as Ho.
  pose proof (A _ _ Ig) as Hg. rewrite (por_fields _ Ho) in Hg.
  unfold _safe_coordinate in Hg. cbn [get bind] in Hg.
  apply is_ok_bind, get_por_inv in Hg.
  pose proof (get_por_inv _ _ (A _ _ Ic1)) as Hc1.
  pose proof (get_por_inv _ _ (A _ _ Ic2)) as Hc2.
  pose proof (get_por_inv _ _ (A _ _ Ie)) as He.
  assert (H7 : mapping_or_falsy (ecofin_block d) = true).
  { destruct I7 as [I7 | [T I7]].
    - exact (get_inv_mapping _ _ (A _ _ I7)).
    - unfold ecofin_block. rewrite T. exact (get_por_inv _ _ (A _ _ I7)). }
  unfold well_shaped. cbn [forallb].
  now rewrite Ha, Ho, Hg, Hc, Hc1, Hc2, Hb, H7, He.
Qed.

(** The records the flattener returns on are the well-shaped ones. *)
Lemma flatten_returns_iff (d : dict) :
  is_ok (flatten_company_record (PDict d)) = well_shaped d.
Proof.
  destruct (flatten_company_record (PDict d)) as [flat|e] eqn:H.
  - symmetry. exact (flatten_ok_well_shaped _ _ H).
  - destruct (well_shaped d) eqn:W; [|reflexivity].
    destruct (flatten_well_shaped d W) as (flat & E & _). congruence.
Qed.

(** C4, at the failing record. A record whose [employees] entry is a
    number, not a mapping, is not flattened: the call raises
    AttributeError, where a sibling path ([_nested_get]) would give None. *)
Theorem flatten_raises_on_scalar_block :
  flatten_company_record (PDict Scenarios.head_count)
  = Raise (AttributeError TInt "get").
Proof. reflexivity. Qed.

(** C7, at the failing records. A record that has no [address] key and
    whose [employees] entry is a number is not flattened to a row with None
    in the address fields, and a record whose registered office carries
    [gps.coordinates = [10.0, 45.0]] gets no latitude and no longitude when
    it has such an entry: both calls raise AttributeError, where a sibling
    path ([_nested_get]) would give None. *)
Theorem flatten_address_raises_on_scalar_block :
  (dict_lookup "address" Scenarios.head_count = None
   /\ flatten_company_record (PDict Scenarios.head_count)
      = Raise (AttributeError TInt "get"))
  /\ (_safe_coordinate (registered_office Scenarios.surveyed) 1 = Ok (PFloat 45.0)
      /\ _safe_coordinate (registered_office Scenarios.surveyed) 0 = Ok (PFloat 10.0)
      /\ flatten_company_record (PDict Scenarios.surveyed)
         = Raise (AttributeError TInt "get")).
Proof. repeat split. Qed.

(** X29. For a record whose blocks on the access paths are absent, falsy
    or mappings: when the registered office carries
    [gps.coordinates = [x, y]] the flat record has latitude [y] (index 1)
    and longitude [x] (index 0); when the record has no [address] key the
    flat record has None for [address] and for every other field read from
    the address. In both cases the call returns. *)
Theorem flatten_address_fields (d : dict) :
  well_shaped d = true ->
  (forall a office gps x y,
     dict_lookup "address" d = Some (PDict a) ->
     dict_lookup "registeredOffice" a = Some (PDict office) ->
     dict_lookup "gps" office = Some (PDict gps) ->
     dict_lookup "coordinates" gps = Some (PList [x; y]) ->
     exists flat,
       flatten_company_record (PDict d) = Ok flat
       /\ dict_get flat "latitude" = y
       /\ dict_get flat "longitude" = x)
  /\ (dict_lookup "address" d = None ->
      exists flat,
        flatten_company_record (PDict d) = Ok flat
        /\ dict_get flat "address" = PNone
        /\ forall key, In key address_fields -> dict_get flat key = PNone).
Proof.
  intros W. destruct (flatten_well_shaped d W) as (flat & Hf & _ & _ & Ha).
  unfold registered_office in Ha. split.
  - intros a office gps x y H1 H2 H3 H4. exists flat. split; [exact Hf|].
    rewrite (dict_get_found _ _ _ H1) in Ha. cbn [fields] in Ha.
    rewrite (dict_get_found _ _ _ H2) in Ha. cbn [fields] in Ha.
    rewrite (dict_get_found _ _ _ H3) in Ha. cbn [fields] in Ha.
    rewrite (dict_get_found _ _ _ H4) in Ha.
    cbn [map address_fields] in Ha. inversion Ha. split; reflexivity.
  - intros H. exists flat. split; [exact Hf|].
    rewrite (dict_get_missing _ _ H) in Ha. cbn [fields] in Ha.
    assert (P : forall key, In key address_fields -> dict_get flat key = PNone).
    { intros key Hk. apply (in_map (dict_get flat)) in Hk. rewrite Ha in Hk.
      cbn in Hk. repeat (destruct Hk as [Hk | Hk]; [now symmetry|]). destruct Hk. }
    split; [apply P; cbn; auto | exact P].
Qed.

Lemma flatten_all_ok (records : list value) :
  forallb exportable_record records = true ->
  exists flats,
    flatten_all records = Ok flats
    /\ List.length flats = List.length records
    /\ map (fun row => dict_get row "id") flats
       = map (fun r => dict_get (fields r) "id") records
    /\ forallb (fun row => forallb cell_accepts (row_cells row)) flats = true.
Proof.
  induction records as [|r records IH]; intros H.
  - exists []. repeat split.
  - apply forallb_cons_true in H as [Hr H]. destruct (IH H) as (flats & E & L & I & A).
    unfold exportable_record in Hr.
    destruct (flatten_company_record r) as [row|] eqn:Er; [|discriminate].
    destruct (flatten_ok_id _ _ Er) as (_ & Hid & _).
    exists (row :: flats). cbn [flatten_all List.length map forallb].
    rewrite Er. cbn [bind]. rewrite E. cbn [bind].
    rewrite L, I, Hid, Hr, A. repeat split.
Qed.

Lemma append_rows_ok (flats : list dict) (ws : worksheet) :
  forallb (fun row => forallb cell_accepts (row_cells row)) flats = true ->
  append_rows ws STANDARD_HEADERS flats
  = Ok {| title := title ws;
          rows := (rows ws ++ map row_cells flats)%list;
          column_widths := column_widths ws |}.
Proof.
  revert ws. induction flats as [|row flats IH]; intros ws H.
  - simpl. rewrite app_nil_r. now destruct ws.
  - apply forallb_cons_true in H as [Hr H]. cbn [append_rows map].
    unfold ws_append. change (map (dict_get row) STANDARD_HEADERS) with (row_cells row).
    rewrite Hr. cbn [bind]. rewrite (IH _ H).
    cbn [title rows column_widths]. now rewrite <- app_assoc.
Qed.

End ExporterFacts.

(** * Properties of the export *)

Section ExportFacts.

Import Exporter.

Context {RT : Runtime} {FS : Type} {FI : FileSystem FS}.

Lemma append_rows_cells (records : list value) (flats : list dict)
    (ws ws' : worksheet) :
  flatten_all records = Ok flats ->
  append_rows ws STANDARD_HEADERS flats = Ok ws' ->
  forallb exportable_record records = true.
Proof.
  revert flats ws. induction records as [|r records IH]; intros flats ws F A.
  - reflexivity.
  - cbn [flatten_all] in F.
    apply bind_ok_inv in F as (row & Er & F).
    apply bind_ok_inv in F as (rest & Ef & F). inversion F; subst flats.
    cbn [append_rows] in A. apply bind_ok_inv in A as (ws1 & Ew & A).
    cbn [forallb]. unfold exportable_record at 1. rewrite Er.
    unfold ws_append in Ew. fold (row_cells row) in Ew.
    destruct (forallb cell_accepts (row_cells row)); [|discriminate].
    exact (IH _ _ Ef A).
Qed.

(** The workbook of an exportable sequence of records *)
Lemma fill_workbook_ok (records : list value) :
  exportable records = true ->
  exists flats,
    flatten_all records = Ok flats
    /\ List.length flats = List.length records
    /\ fill_workbook records
       = Ok (flats,
             {| active := _autosize_columns
                            {| title := "Aziende";
                               rows := map PStr STANDARD_HEADERS :: map row_cells flats;
                               column_widths := [] |}
                            (List.length STANDARD_HEADERS);
                other_sheets := [] |}).
Proof.
  unfold exportable. intros H. apply andb_true_iff in H as [Hh Hr].
  destruct (flatten_all_ok records Hr) as (flats & E & L & _ & A).
  exists flats. split; [exact E|]. split; [exact L|].
  unfold fill_workbook. rewrite E. cbn [bind].
  unfold ws_append at 1. rewrite Hh. cbn [bind].
  now rewrite (append_rows_ok _ _ A).
Qed.

(** The workbook is filled exactly for the exportable sequences of records. *)
Lemma fill_workbook_returns_iff (records : list value) :
  is_ok (fill_workbook records) = exportable records.
Proof.
  destruct (exportable records) eqn:X.
  - destruct (fill_workbook_ok records X) as (flats & _ & _ & E). now rewrite E.
  - destruct (fill_workbook records) as [r|e] eqn:E; [|reflexivity].
    rewrite <- X. unfold fill_workbook in E.
    apply bind_ok_inv in E as (flats & F & E).
    apply bind_ok_inv in E as (ws1 & Eh & E).
    apply bind_ok_inv in E as (ws2 & Ea & _).
    unfold exportable. rewrite (append_rows_cells _ _ _ _ F Ea).
    unfold ws_append in Eh.
    destruct (forallb cell_accepts (map PStr STANDARD_HEADERS)); [reflexivity|discriminate].
Qed.

Lemma export_of_workbook (records : list value) (flats : list dict) (wb : workbook)
    (output_path : string) (fs : FS) :
  fill_workbook records = Ok (flats, wb) ->
  export_to_excel records output_path fs
  = save_workbook wb output_path (Z.of_nat (List.length flats)) fs.
Proof. intros E. unfold export_to_excel. now rewrite E. Qed.

Lemma export_refused (records : list value) (output_path : string) (fs : FS) :
  exportable records = false ->
  exists e, export_to_excel records output_path fs = (Raise e, fs).
Proof.
  intros X. rewrite <- fill_workbook_returns_iff in X. unfold export_to_excel.
  destruct (fill_workbook records) as [r|e]; [discriminate X|]. now exists e.
Qed.

Lemma save_workbook_cases (wb : workbook) (output_path : string) (count : Z) (fs : FS) :
  (forall fs1 fs2,
     mkdir_parent output_path fs = (None, fs1) ->
     wb_save wb output_path fs1 = (None, fs2) ->
     save_workbook wb output_path count fs = (Ok count, fs2))
  /\ (forall msg fs1,
        mkdir_parent output_path fs = (Some msg, fs1) ->
        save_workbook wb output_path count fs = (Raise (OSError msg), fs1))
  /\ (forall msg fs1 fs2,
        mkdir_parent output_path fs = (None, fs1) ->
        wb_save wb output_path fs1 = (Some msg, fs2) ->
        save_workbook wb output_path count fs = (Raise (OSError msg), fs2)).
Proof.
  unfold save_workbook. repeat split.
  - intros fs1 fs2 M W. now rewrite M, W.
  - intros msg fs1 M. now rewrite M.
  - intros msg fs1 fs2 M W. now rewrite M, W.
Qed.

Lemma save_workbook_returns (wb : workbook) (output_path : string) (count n : Z)
    (fs fs' : FS) :
  save_workbook wb output_path count fs = (Ok n, fs') ->
  n = count
  /\ exists fs1,
       mkdir_parent output_path fs = (None, fs1)
       /\ wb_save wb output_path fs1 = (None, fs').
Proof.
  unfold save_workbook.
  destruct (mkdir_parent output_path fs) as [[msg|] fs1]; [discriminate|].
  destruct (wb_save wb output_path fs1) as [[msg|] fs2] eqn:W; [discriminate|].
  intros H. inversion H; subst. split; [reflexivity|]. now exists fs1.
Qed.



(** C8, as amended. When every record can be exported (it flattens and
    openpyxl stores its cells), exporting N records makes the parent
    directory and saves at the output path a workbook with one sheet of N+1
    rows: the header row, then one row per record in input order whose first
    cell is the record's [id]; the call returns N when the directory is made
    and the workbook saved, and raises the OSError of the operation that
    fails otherwise. When a record cannot be exported the call raises and
    leaves the file system as it was. *)
Theorem export_to_excel_rows (records : list value) (output_path : string)
    (fs : FS) :
  (exportable records = true ->
   exists wb,
     (other_sheets wb = []
      /\ title (active wb) = "Aziende"
      /\ List.length (rows (active wb)) = S (List.length records)
      /\ hd [] (rows (active wb)) = map PStr STANDARD_HEADERS
      /\ map (hd PNone) (tl (rows (active wb)))
         = map (fun r => dict_get (fields r) "id") records)
     /\ (forall fs1 fs2,
           mkdir_parent output_path fs = (None, fs1) ->
           wb_save wb output_path fs1 = (None, fs2) ->
           export_to_excel records output_path fs
           = (Ok (Z.of_nat (List.length records)), fs2))
     /\ (forall msg fs1,
           mkdir_parent output_path fs = (Some msg, fs1) ->
           export_to_excel records output_path fs = (Raise (OSError msg), fs1))
     /\ (forall msg fs1 fs2,
           mkdir_parent output_path fs = (None, fs1) ->
           wb_save wb output_path fs1 = (Some msg, fs2) ->
           export_to_excel records output_path fs = (Raise (OSError msg), fs2)))
  /\ (exportable records = false ->
      exists e, export_to_excel records output_path fs = (Raise e, fs)).
Proof.
  split; [|apply export_refused].
  intros X. destruct (fill_workbook_ok records X) as (flats & F & L & E).
  pose proof X as Xr. unfold exportable in Xr. apply andb_true_iff in Xr as [_ Xr].
  destruct (flatten_all_ok records Xr) as (flats' & F' & _ & I & _).
  rewrite F in F'. inversion F'; subst flats'.
  eexists. split; [|rewrite (export_of_workbook _ _ _ output_path fs E), L;
                    apply save_workbook_cases].
  cbn [other_sheets active title rows _autosize_columns tl hd].
  repeat split.
  - cbn [List.length]. now rewrite length_map, L.
  - rewrite map_map. rewrite <- I. apply map_ext. intros row. reflexivity.
Qed.

End ExportFacts.


(** * The scenarios, run *)

Section Runs.

Import Client Exporter Doubles Scenarios.

#[local] Existing Instance plain_runtime.

Lemma sanitize_ateco_code_digits_witness :
  sanitize_ateco_code "10.71" = Ok "1071"
  /\ exists msg, sanitize_ateco_code "abc" = Raise (ValueError msg).
Proof.
  split.
  - destruct (sanitize_ateco_code_digits "10.71") as [H _].
    apply H. exists "1"%char. split; [simpl; auto | reflexivity].
  - destruct (sanitize_ateco_code_digits "abc") as [_ H].
    apply H. right. simpl. intros c [<- | [<- | [<- | []]]]; reflexivity.
Defined.

(** C3, as the claim states it, fails at page size 0: the call does not go
    on with an effective page size of 1. *)
Lemma limit_zero_is_refused :
  ~ (exists p, search_params "VR" "1071" "Advanced" 0 None = Ok p
               /\ limit p = Z.max 1 (Z.min 0 100)).
Proof. intros (p & H & _). discriminate H. Qed.

Lemma search_params_limit_witness :
  (exists p, search_params "VR" "10.71" "Advanced" 250 None = Ok p
             /\ limit p = 100)
  /\ search_params "VR" "10.71" "Advanced" 0 None
     = Raise (ValueError "limit must be greater than zero").
Proof.
  split.
  - destruct (@search_params_limit plain_runtime DummySession dummy_session
                "VR" "10.71" "Advanced" 250 None) as [H _].
    destruct (H ltac:(lia) "1071" eq_refl) as (p & Hp & Hl & _).
    exists p. split; [exact Hp | exact Hl].
  - destruct (@search_params_limit plain_runtime DummySession dummy_session
                "VR" "10.71" "Advanced" 0 None) as [_ H].
    destruct (H ltac:(lia)) as [Hr _]. exact Hr.
Defined.

Lemma get_without_success_flag_witness :
  let '(client, session) := make_client [PDict [("data", PList [])]] in
  fst (_get client "/IT-search" [] session)
  = Raise (OpenAPIError "OpenAPI reported an error: Unknown error").
Proof.
  cbv beta iota delta [make_client].
  match goal with
  | |- fst (_get ?c ?path ?q ?s) = _ =>
      pose proof (@get_without_success_flag plain_runtime DummySession dummy_session
                    c path q s
                    {| _responses := [];
                       calls := [(base_url c ++ path, q, timeout c)] |}
                    (DummyResponse 200 (PDict [("data", PList [])]))
                    [("data", PList [])]) as H
  end.
  destruct (H eq_refl eq_refl eq_refl eq_refl) as (_ & _ & E).
  rewrite (E eq_refl). reflexivity.
Defined.

Lemma page_without_data_witness :
  page {| province := "VR"; ateco_code := "1071"; data_enrichment := "Advanced";
          limit := 2; activity_status := None; dry_run := false |}
       None 2 (PDict [("success", PBool true)])
  = PageStop [] Finished.
Proof.
  match goal with
  | |- page ?p ?m ?f (PDict ?d) = _ =>
      destruct (@page_without_data plain_runtime DummySession dummy_session p m f d)
        as [H _]
  end.
  destruct (H eq_refl) as [E _]. exact E.
Defined.

(** The pagination test: the third, empty page is still unserved when
    the generator ends. *)
Lemma search_companies_ends_on_short_page_witness :
  let '(client, session) := make_client three_pages in
  let r := search_companies 3 client "VR" "10.71" "Advanced" 2 None None session in
  yielded r = [company "A"; company "B"; company "C"]
  /\ List.length (queries r) = 2%nat
  /\ outcome r = Finished
  /\ _responses (session_after r) = [DummyResponse 200 (page_of [])].
Proof.
  cbv beta iota delta [make_client].
  match goal with
  | |- let r := search_companies _ ?c _ _ _ _ _ _ ?s in _ =>
      pose proof (@search_companies_ends_on_short_page plain_runtime DummySession
                    dummy_session 1 c "VR" "10.71" "Advanced" "1071" None s) as H
  end.
  cbv zeta in H.
  match type of H with
  | forall s1 s2 d1 d2 a b c, _ -> _ ?c0 ?path ?q0 ?s0 = _ -> _ =>
      specialize (H (snd (_get c0 path q0 s0)))
  end.
  match type of H with
  | forall s2 d1 d2 a b c, _ -> _ -> _ -> _ ?c0 ?path ?q1 ?s1 = _ -> _ =>
      specialize (H (snd (_get c0 path q1 s1)))
  end.
  specialize (H [("success", PBool true); ("data", PList [company "A"; company "B"])]
                [("success", PBool true); ("data", PList [company "C"])]
                (company "A") (company "B") (company "C")
                eq_refl eq_refl eq_refl eq_refl eq_refl).
  intros r. subst r. change (2 + 1)%nat with 3%nat in H. rewrite H.
  repeat split; reflexivity.
Defined.

(** The cap test on an upstream that never runs out of full pages: it has
    served two pages when the generator ends. *)
Lemma search_companies_stops_at_cap_witness :
  let r := search_companies 10 {| base_url := SANDBOX_BASE_URL; timeout := 30 |}
             "VR" "1071" "Advanced" 5 (Some 6) None (endless full_page) in
  List.length (yielded r) = 6%nat
  /\ List.length (queries r) = 2%nat
  /\ outcome r = Finished
  /\ served (session_after r) = 2%nat.
Proof.
  pose proof (@search_companies_stops_at_cap plain_runtime Endless endless_session
                8 {| base_url := SANDBOX_BASE_URL; timeout := 30 |}
                "VR" "1071" "Advanced" "1071" None
                (endless full_page)
                {| reply := DummyResponse 200 full_page; served := 1 |}
                {| reply := DummyResponse 200 full_page; served := 2 |}
                (fields full_page) (fields full_page)
                (map company ["0"; "1"; "2"; "3"; "4"])
                (map company ["0"; "1"; "2"; "3"; "4"])) as H.
  cbv zeta in H.
  destruct (H eq_refl eq_refl eq_refl eq_refl eq_refl eq_refl eq_refl)
    as (_ & Hl & Hq & Ho & Hs).
  change (2 + 8)%nat with 10%nat in *.
  intros r. subst r. split; [exact Hl|]. rewrite Hq, Ho, Hs. repeat split.
Defined.

(** C5, as the claim states it, fails on a numeric total that is a float:
    the dry run does not return 42 but raises the structural error. *)
Lemma dry_run_count_refuses_float :
  let '(client, session) := make_client [dry_run_reply (PFloat 42.0)] in
  fst (dry_run_count client "VR" "1071" None session)
    = Raise (OpenAPIError total_message)
  /\ fst (dry_run_count client "VR" "1071" None session) <> Ok 42.
Proof. split; [reflexivity | discriminate]. Qed.

Lemma dry_run_count_total_witness :
  let '(client, session) := make_client [dry_run_reply (PInt 42)] in
  fst (dry_run_count client "VR" "1071" None session) = Ok 42.
Proof.
  cbv beta iota delta [make_client].
  match goal with
  | |- fst (dry_run_count ?c _ _ _ ?s) = _ =>
      pose proof (@dry_run_count_total plain_runtime DummySession dummy_session
                    c "VR" "1071" "1071" None s
                    (snd (dry_run_count c "VR" "1071" None s))
                    (dry_run_reply (PInt 42)) (PInt 42)
                    eq_refl eq_refl eq_refl) as H
  end.
  destruct H as (_ & _ & _ & H & _). rewrite (H eq_refl). reflexivity.
Defined.

Lemma flatten_address_fields_witness :
  (exists flat,
     flatten_company_record (PDict located) = Ok flat
     /\ dict_get flat "latitude" = PFloat 45.0
     /\ dict_get flat "longitude" = PFloat 10.0)
  /\ (exists flat,
        flatten_company_record (PDict alpha) = Ok flat
        /\ dict_get flat "address" = PNone
        /\ forall key, In key address_fields -> dict_get flat key = PNone).
Proof.
  split.
  - destruct (@flatten_address_fields plain_runtime located eq_refl) as [H _].
    exact (H _ _ _ _ _ eq_refl eq_refl eq_refl eq_refl).
  - destruct (@flatten_address_fields plain_runtime alpha eq_refl) as [_ H].
    exact (H eq_refl).
Defined.

(** C8, as the claim states it, fails on two records that flatten when the
    output path is a directory: nothing is saved and the call does not
    return 2 but raises the OSError of [wb.save]. It fails as well on one
    record with two secondary codes: the list is not a cell value, the call
    does not return 1 and nothing is saved. *)
Lemma export_to_excel_not_saved :
  (export_to_excel [PDict alpha; PDict beta] "reports" with_reports
   = (Raise (OSError "[Errno 21] Is a directory: 'reports'"), with_reports)
   /\ fst (export_to_excel [PDict alpha; PDict beta] "reports" with_reports) <> Ok 2)
  /\ (export_to_excel [PDict two_trades] "companies.xlsx" empty_disk
      = (Raise CellValueError, empty_disk)
      /\ fst (export_to_excel [PDict two_trades] "companies.xlsx" empty_disk) <> Ok 1).
Proof.
  split; (split; [reflexivity | discriminate]).
Qed.

(** The export test: two records, three rows, the ids in the first cells. *)
Lemma export_to_excel_rows_witness :
  exists wb,
    export_to_excel [PDict alpha; PDict beta] "companies.xlsx" empty_disk
      = (Ok 2, {| directories := []; workbooks := [("companies.xlsx", wb)] |})
    /\ List.length (rows (active wb)) = 3%nat
    /\ map (hd PNone) (tl (rows (active wb))) = [PStr "1"; PStr "2"].
Proof.
  destruct (@export_to_excel_rows plain_runtime Disk disk [PDict alpha; PDict beta]
              "companies.xlsx" empty_disk) as [H _].
  destruct (H eq_refl) as (wb & (_ & _ & L & _ & I) & S & _).
  exists wb. split; [exact (S _ _ eq_refl eq_refl)|]. split; [exact L | exact I].
Defined.

(** The remaining assertions of the test suite *)

Example test_sanitize_blanks : sanitize_ateco_code " 6201 " = Ok "6201".
Proof. reflexivity. Qed.

Example test_search_companies_raises_on_api_error :
  let '(client, session) :=
    make_client [PDict [("success", PBool false); ("message", PStr "Invalid token")]] in
  let r := search_companies 1 client "VR" "1071" "Advanced" 100 None None session in
  yielded r = []
  /\ outcome r = Raised (OpenAPIError "OpenAPI reported an error: Invalid token").
Proof. split; reflexivity. Qed.

Example test_flatten_company_record :
  exists flat,
    flatten_company_record (PDict located) = Ok flat
    /\ map (dict_get flat)
         ["company_name"; "province"; "latitude"; "longitude"; "ateco_code"; "employees"]
       = [PStr "Example SRL"; PStr "VR"; PFloat 45.0; PFloat 10.0; PStr "1071"; PInt 12].
Proof. eexists. split; reflexivity. Qed.

(** Two more inputs on which the dry run leaves through an exception that
    is not the structural error: a [metadata] that is not a mapping, and a
    [total] made of a superscript digit, which passes [isdigit] and which
    [int] refuses. *)
Example dry_run_count_on_text_metadata :
  let '(client, session) :=
    make_client [PDict [("success", PBool true); ("metadata", PStr "n/a")]] in
  fst (dry_run_count client "VR" "1071" None session)
  = Raise (AttributeError TStr "get").
Proof. reflexivity. Qed.

Example dry_run_count_on_superscript :
  let '(client, session) :=
    make_client [dry_run_reply (PStr (String (ascii_of_N 178) ""))] in
  fst (dry_run_count client "VR" "1071" None session)
  = Raise (IntLiteralError (String (ascii_of_N 178) "")).
Proof. reflexivity. Qed.

End Runs.

(** * More on the client *)

Section SanitizerFacts.

Import Client.

Lemma str_filter_all (p : ascii -> bool) (s : string) :
  str_all p (str_filter p s) = true.
Proof.
  induction s as [|c s IH]; simpl; [reflexivity|].
  destruct (p c) eqn:E; simpl; [now rewrite E|exact IH].
Qed.

Lemma str_filter_fixed (p : ascii -> bool) (s : string) :
  str_all p s = true -> str_filter p s = s.
Proof.
  induction s as [|c s IH]; simpl; [reflexivity|].
  intros H. apply andb_true_iff in H as [Hc H]. now rewrite Hc, (IH H).
Qed.

Lemma str_filter_length (p : ascii -> bool) (s : string) :
  (String.length (str_filter p s) <= String.length s)%nat.
Proof.
  induction s as [|c s IH]; simpl; [lia|]. destruct (p c); simpl; lia.
Qed.

(** X1. What the sanitizer returns is never empty, is made of digit
    characters only, is no longer than the input, and is left unchanged by
    a second sanitization: sanitizing twice (as the command line and then
    the client do) never fails where sanitizing once succeeded. *)
Theorem sanitize_ateco_code_idempotent (code digits : string) :
  sanitize_ateco_code code = Ok digits ->
  str_isdigit digits = true
  /\ (String.length digits <= String.length code)%nat
  /\ sanitize_ateco_code digits = Ok digits.
Proof.
  unfold sanitize_ateco_code.
  destruct (truthy (PStr code)); [|discriminate].
  destruct (truthy (PStr (str_filter isdigit code))) eqn:T; [|discriminate].
  cbn [negb]. intros H. inversion H; subst digits. clear H.
  split; [|split].
  - unfold str_isdigit. rewrite str_filter_all, andb_true_r. exact T.
  - apply str_filter_length.
  - rewrite T. cbn [negb].
    rewrite (str_filter_fixed _ _ (str_filter_all isdigit code)).
    now rewrite T.
Qed.

End SanitizerFacts.

Section RequestFacts.

Import Client.

Context {RT : Runtime} {St : Type} {SE : Session St}.

(** X2. [_get] returns a payload only for a reply whose status is not a 4xx
    or 5xx one and whose body is a JSON object with a truthy [success]; it
    then returns that body unchanged, and it returns on every such reply. *)
Theorem get_returns_validated (self : client) (path : string) (params : dict)
    (s s' : St) (payload : value) :
  _get self path params s = (Ok payload, s')
  <-> exists r d,
        session_get s (base_url self ++ path) params (timeout self) = (Ok r, s')
        /\ is_http_error (status_code r) = false
        /\ body r = Some payload
        /\ payload = PDict d
        /\ truthy (dict_get_default d "success" (PBool false)) = true.
Proof.
  split.
  - intros H. apply get_inv in H as (r & Hs & Hv). exists r.
    unfold validate in Hv.
    destruct (status_code r =? 401); [discriminate|].
    destruct (status_code r =? 402); [discriminate|].
    destruct (status_code r =? 422); [discriminate|].
    destruct (is_http_error (status_code r)); [discriminate|].
    destruct (body r) as [v|]; [|discriminate].
    destruct v as [| | | | | |d]; try discriminate. cbn [get_default bind] in Hv.
    destruct (truthy (dict_get_default d "success" (PBool false))) eqn:T;
      cbn [negb] in Hv; [|discriminate].
    inversion Hv; subst. exists d. auto.
  - intros (r & d & Hs & He & Hb & -> & T).
    rewrite (get_intro _ _ _ _ _ _ Hs). f_equal.
    unfold validate.
    destruct (Z.eqb_spec (status_code r) 401) as [E|_]; [rewrite E in He; discriminate|].
    destruct (Z.eqb_spec (status_code r) 402) as [E|_]; [rewrite E in He; discriminate|].
    destruct (Z.eqb_spec (status_code r) 422) as [E|_]; [rewrite E in He; discriminate|].
    rewrite He, Hb. cbn [get_default bind]. now rewrite T.
Qed.

(** X3. The three typed errors stand for the three statuses and nothing
    else: the validation raises AuthenticationError exactly on 401,
    PaymentRequiredError exactly on 402 and ValidationError exactly on 422,
    whatever the body holds. *)
Theorem validate_typed_errors (r : response) :
  (forall m, validate r = Raise (AuthenticationError m)
             <-> status_code r = 401 /\ m = "Unauthorized: check your bearer token")
  /\ (forall m, validate r = Raise (PaymentRequiredError m)
                <-> status_code r = 402
                    /\ m = "Insufficient credits on OpenAPI account")
  /\ (forall m, validate r = Raise (ValidationError m)
                <-> status_code r = 422 /\ m = "Request rejected: invalid parameters").
Proof.
  assert (G : status_code r <> 401 -> status_code r <> 402 -> status_code r <> 422 ->
              forall e, validate r = Raise e ->
                        match e with
                        | AuthenticationError _ | PaymentRequiredError _
                        | ValidationError _ => False
                        | _ => True
                        end).
  { intros N1 N2 N3 e. unfold validate.
    destruct (Z.eqb_spec (status_code r) 401); [contradiction|].
    destruct (Z.eqb_spec (status_code r) 402); [contradiction|].
    destruct (Z.eqb_spec (status_code r) 422); [contradiction|].
    destruct (is_http_error (status_code r)); [intros H; now inversion H|].
    destruct (body r) as [v|]; [|intros H; now inversion H].
    destruct v; cbn [get_default bind type_of]; try (intros H; now inversion H).
    destruct (truthy (dict_get_default entries "success" (PBool false)));
      cbn [negb get bind]; intros H; [discriminate | now inversion H]. }
  destruct (Z.eq_dec (status_code r) 401) as [E1|N1].
  { assert (V : validate r
                = Raise (AuthenticationError "Unauthorized: check your bearer token")).
    { unfold validate. now rewrite E1. }
    rewrite V, E1. split; [|split]; intros m; split; intros H;
      try (inversion H; auto; fail); destruct H as [H ->]; (reflexivity || discriminate). }
  destruct (Z.eq_dec (status_code r) 402) as [E2|N2].
  { assert (V : validate r
                = Raise (PaymentRequiredError "Insufficient credits on OpenAPI account")).
    { unfold validate. now rewrite E2. }
    rewrite V, E2. split; [|split]; intros m; split; intros H;
      try (inversion H; auto; fail); destruct H as [H ->]; (reflexivity || discriminate). }
  destruct (Z.eq_dec (status_code r) 422) as [E3|N3].
  { assert (V : validate r
                = Raise (ValidationError "Request rejected: invalid parameters")).
    { unfold validate. now rewrite E3. }
    rewrite V, E3. split; [|split]; intros m; split; intros H;
      try (inversion H; auto; fail); destruct H as [H ->]; (reflexivity || discriminate). }
  split; [|split]; intros m; split; intros H;
    try (now destruct (G N1 N2 N3 _ H)); destruct H as [H _]; contradiction.
Qed.

Lemma opt_truthy_cases (o : option string) :
  (opt_truthy o = true /\ exists s, o = Some s /\ s <> "")
  \/ (opt_truthy o = false /\ (o = None \/ o = Some "")).
Proof.
  destruct o as [s|]; [|right; auto].
  unfold opt_truthy. destruct (truthy (PStr s)) eqn:T.
  - left. split; [reflexivity|]. exists s. split; [reflexivity|].
    intros ->. discriminate.
  - right. apply truthy_str in T. subst. auto.
Qed.

(** X4. A query always carries [province] (upper-cased), [atecoCode],
    [limit] and [skip]; it carries [dataEnrichment] and [activityStatus]
    only when they are not empty, and [dryRun] (as 1) only for a dry run.
    No key occurs twice. *)
Theorem as_query_params_keys (p : SearchParams) (skip : Z) :
  let q := as_query_params p skip in
  dict_lookup "province" q = Some (PStr (str_upper (province p)))
  /\ dict_lookup "atecoCode" q = Some (PStr (ateco_code p))
  /\ dict_lookup "limit" q = Some (PInt (limit p))
  /\ dict_lookup "skip" q = Some (PInt skip)
  /\ dict_lookup "dataEnrichment" q
     = (if String.eqb (data_enrichment p) "" then None
        else Some (PStr (data_enrichment p)))
  /\ dict_lookup "activityStatus" q
     = match activity_status p with
       | Some status => if String.eqb status "" then None else Some (PStr status)
       | None => None
       end
  /\ dict_lookup "dryRun" q = (if dry_run p then Some (PInt 1) else None)
  /\ NoDup (map fst q).
Proof.
  intros q. subst q. unfold as_query_params.
  destruct p as [pr ac de li st dr]. cbn [province ateco_code data_enrichment limit
    activity_status dry_run Client.province Client.ateco_code Client.data_enrichment
    Client.limit Client.activity_status Client.dry_run].
  unfold opt_truthy, opt_value, truthy.
  destruct (String.eqb de ""); destruct st as [status|];
    try destruct (String.eqb status ""); destruct dr; cbn;
    repeat split;
    repeat (constructor; [cbn; intuition discriminate|]); constructor.
Qed.

End RequestFacts.

Section PaginationFacts.

Import Client.

Context {RT : Runtime} {St : Type} {SE : Session St}.





Lemma pages_offsets (self : client) (params : SearchParams) (max_records : option Z)
    (fuel : nat) :
  forall fetched skip (s : St),
    let r := pages fuel self params max_records fetched skip s in
    queries r
    = map (fun i => as_query_params params (skip + Z.of_nat i * limit params))
          (seq 0 (List.length (queries r))).
Proof.
  induction fuel as [|fuel IH]; intros fetched skip s; [reflexivity|].
  cbn [pages].
  destruct (_get self "/IT-search" (as_query_params params skip) s) as [[payload|e] s1].
  - destruct (page params max_records fetched payload) as [ys e|ys f].
    + cbn. now rewrite Z.add_0_r.
    + cbn zeta in IH. cbn [after_page queries List.length seq map].
      rewrite Z.mul_0_l, Z.add_0_r. f_equal.
      rewrite (IH f (skip + limit params) s1) at 1.
      rewrite <- seq_shift, map_map. apply map_ext. intros i. f_equal. lia.
  - cbn. now rewrite Z.add_0_r.
Qed.

(** X6. The requests of one search differ only in their offset: the i-th
    request (from 0) asks for the same page size [min(limit, 100)] at
    offset [i * min(limit, 100)], whatever the sizes of the pages served. *)
Theorem search_companies_offsets (fuel : nat) (self : client)
    (province code enrichment digits : string) (lim : Z) (max_records : option Z)
    (status : option string) (s : St) :
  0 < lim ->
  sanitize_ateco_code code = Ok digits ->
  let params := {| province := province; ateco_code := digits;
                   data_enrichment := enrichment; limit := Z.min lim 100;
                   activity_status := status; dry_run := false |} in
  let r := search_companies fuel self province code enrichment lim max_records
             status s in
  queries r
  = map (fun i => as_query_params params (Z.of_nat i * Z.min lim 100))
        (seq 0 (List.length (queries r))).
Proof.
  intros Hl Hc params r. subst r.
  rewrite search_companies_start with (digits := digits) by assumption.
  fold params. exact (pages_offsets self params max_records fuel 0 0 s).
Qed.

(** X7. When the first reply fails the validation, the generator yields
    nothing and ends with that very exception after its single request:
    there is no retry and no partial result. *)
Theorem search_companies_first_reply_refused (fuel : nat) (self : client)
    (province code enrichment digits : string) (lim : Z) (max_records : option Z)
    (status : option string) (s s1 : St) (r : response) (e : exn) :
  0 < lim ->
  sanitize_ateco_code code = Ok digits ->
  let q := as_query_params {| province := province; ateco_code := digits;
                              data_enrichment := enrichment; limit := Z.min lim 100;
                              activity_status := status; dry_run := false |} 0 in
  session_get s (base_url self ++ "/IT-search") q (timeout self) = (Ok r, s1) ->
  validate r = Raise e ->
  search_companies (S fuel) self province code enrichment lim max_records status s
  = stop [] [q] (Raised e) s1.
Proof.
  intros Hl Hc q Hs Hv.
  rewrite search_companies_start with (digits := digits) by assumption.
  cbn [pages]. fold q. rewrite (get_intro _ _ _ _ _ _ Hs), Hv. reflexivity.
Qed.

End PaginationFacts.

Section YieldFacts.

Import Client.

Lemma yield_items_uncapped (data : list value) :
  forall fetched,
    yield_items None data fetched = (data, fetched + Z.of_nat (List.length data), false).
Proof.
  induction data as [|item data IH]; intros fetched; cbn [yield_items cap_reached].
  - cbn. now rewrite Z.add_0_r.
  - rewrite IH. cbn [List.length]. f_equal. f_equal. lia.
Qed.

Lemma firstn_nil_inv {A} (n : nat) (l : list A) :
  (0 < n)%nat -> firstn n l = [] -> l = [].
Proof. destruct n; [lia|]. now destruct l. Qed.

Lemma yield_items_until_cap (m : Z) (data : list value) :
  forall fetched,
    fetched < m ->
    let k := Z.to_nat (m - fetched) in
    exists f,
      yield_items (Some m) data fetched
      = (firstn k data, f, (k <=? List.length data)%nat)
      /\ ((List.length data < k)%nat -> f = fetched + Z.of_nat (List.length data)).
Proof.
  induction data as [|item data IH]; intros fetched Hf k.
  - exists fetched. cbn [yield_items List.length].
    rewrite firstn_nil. destruct (Nat.leb_spec k 0); [unfold k in *; lia|].
    split; [reflexivity | cbn; lia].
  - cbn [yield_items cap_reached].
    destruct (Z.leb_spec m (fetched + 1)) as [Hm|Hm].
    + exists (fetched + 1). replace k with 1%nat by (unfold k; lia).
      split; [reflexivity | cbn; lia].
    + destruct (IH (fetched + 1) Hm) as (f & Y & Hlen). rewrite Y. exists f.
      replace k with (S (Z.to_nat (m - (fetched + 1)))) by (unfold k; lia).
      split; [reflexivity|]. cbn [List.length]. intros H. rewrite Hlen; lia.
Qed.

End YieldFacts.

Section HonestUpstream.

Import Client.

Context {RT : Runtime} {St : Type} {SE : Session St}.

Variable reachable : St -> Prop.
Variable self : client.
Variable params : SearchParams.
Variable db : list value.

Hypothesis page_size : 0 < limit params.
Hypothesis upstream : serves reachable self params db.

Let L := Z.to_nat (limit params).

Lemma page_of_nil (max_records : option Z) (fetched : Z) (d : dict) :
  dict_lookup "data" d = Some (PList []) ->
  page params max_records fetched (PDict d) = PageStop [] Finished.
Proof.
  intros H. unfold page, get_default, dict_get_default. now rewrite H.
Qed.

Lemma pages_serves_all (fuel : nat) :
  forall (n : nat) (fetched : Z) (s : St),
    reachable s ->
    (List.length db - n < fuel * L)%nat ->
    let r := pages fuel self params None fetched (Z.of_nat n) s in
    yielded r = skipn n db
    /\ outcome r = Finished
    /\ List.length (queries r) = S ((List.length db - n) / L)
    /\ reachable (session_after r).
Proof.
  assert (HL : (0 < L)%nat) by (unfold L; lia).
  induction fuel as [|fuel IH]; intros n fetched s Hr Hfuel; [lia|].
  destruct (upstream n s Hr) as (d & s' & Hg & Hr' & Hd).
  fold L in Hd. cbn zeta. rewrite (pages_step _ _ _ _ _ _ _ _ _ Hg).
  pose proof (length_skipn n db) as Hx.
  set (x := skipn n db) in *.
  destruct (firstn L x) as [|item items] eqn:E.
  - rewrite (page_of_nil _ _ _ Hd). cbn [stop yielded outcome queries session_after].
    apply firstn_nil_inv in E; [|exact HL]. rewrite E in *. cbn in Hx.
    rewrite <- Hx. rewrite Nat.Div0.div_0_l. auto.
  - rewrite (page_of_list _ _ _ _ _ _ Hd), yield_items_uncapped. cbv beta iota zeta.
    assert (Hlen : List.length (item :: items) = Nat.min L (List.length x))
      by (rewrite <- E; apply length_firstn).
    destruct (Z.ltb_spec (Z.of_nat (List.length (item :: items))) (limit params))
      as [Hs|Hs].
    + assert (Hshort : (List.length x < L)%nat) by (unfold L in *; lia).
      cbn [stop yielded outcome queries session_after].
      rewrite <- E, firstn_all2 by lia.
      rewrite <- Hx, Nat.div_small by lia. auto.
    + assert (Hfull : (L <= List.length x)%nat) by (unfold L in *; lia).
      replace (Z.of_nat n + limit params) with (Z.of_nat (n + L))
        by (unfold L; lia).
      destruct (IH (n + L)%nat (fetched + Z.of_nat (List.length (item :: items))) s' Hr'
                   ltac:(lia)) as (Hy & Ho & Hq & Hs').
      cbv zeta in Hy, Ho, Hq, Hs'.
      set (rest := pages fuel self params None _ _ s') in *.
      cbn [after_page yielded outcome queries session_after List.length].
      rewrite Hy, Ho, Hq. repeat split; [| |exact Hs'].
      * rewrite <- E. replace (n + L)%nat with (L + n)%nat by lia.
        rewrite <- skipn_skipn. apply firstn_skipn.
      * f_equal.
        replace (List.length db - n)%nat with ((List.length db - (n + L)) + 1 * L)%nat
          by lia.
        rewrite Nat.div_add by lia. lia.
Qed.

Lemma pages_serves_capped (m : Z) (fuel : nat) :
  forall (n : nat) (s : St),
    reachable s ->
    Z.of_nat n < m ->
    (List.length db - n < fuel * L)%nat ->
    let r := pages fuel self params (Some m) (Z.of_nat n) (Z.of_nat n) s in
    yielded r = firstn (Z.to_nat m - n) (skipn n db)
    /\ outcome r = Finished.
Proof.
  assert (HL : (0 < L)%nat) by (unfold L; lia).
  induction fuel as [|fuel IH]; intros n s Hr Hm Hfuel; [lia|].
  destruct (upstream n s Hr) as (d & s' & Hg & Hr' & Hd).
  fold L in Hd. cbn zeta. rewrite (pages_step _ _ _ _ _ _ _ _ _ Hg).
  pose proof (length_skipn n db) as Hx.
  set (x := skipn n db) in *.
  destruct (firstn L x) as [|item items] eqn:E.
  - rewrite (page_of_nil _ _ _ Hd). cbn [stop yielded outcome].
    apply firstn_nil_inv in E; [|exact HL]. rewrite E. now rewrite firstn_nil.
  - rewrite (page_of_list _ _ _ _ _ _ Hd).
    destruct (yield_items_until_cap m (item :: items) (Z.of_nat n) Hm) as (f & Y & Hf).
    cbv zeta in Y, Hf. rewrite Y.
    replace (Z.to_nat (m - Z.of_nat n)) with (Z.to_nat m - n)%nat in * by lia.
    set (k := (Z.to_nat m - n)%nat) in *.
    assert (Hlen : List.length (item :: items) = Nat.min L (List.length x))
      by (rewrite <- E; apply length_firstn).
    destruct (Nat.leb_spec k (List.length (item :: items))) as [Hk|Hk].
    + cbn [stop yielded outcome]. split; [|reflexivity].
      rewrite <- E, firstn_firstn. f_equal. lia.
    + rewrite firstn_all2 by lia. specialize (Hf Hk). subst f.
      destruct (Z.ltb_spec (Z.of_nat (List.length (item :: items))) (limit params))
        as [Hs|Hs].
      * cbn [stop yielded outcome]. split; [|reflexivity].
        assert (Hshort : (List.length x < L)%nat) by (unfold L in *; lia).
        rewrite <- E, firstn_all2 by lia. symmetry. apply firstn_all2. lia.
      * assert (Hfull : List.length (item :: items) = L) by (unfold L in *; lia).
        replace (Z.of_nat n + limit params) with (Z.of_nat (n + L))
          by (unfold L; lia).
        replace (Z.of_nat n + Z.of_nat (List.length (item :: items)))
          with (Z.of_nat (n + L)) by lia.
        destruct (IH (n + L)%nat s' Hr' ltac:(lia) ltac:(lia)) as (Hy & Ho).
        cbn [after_page yielded outcome]. rewrite Hy, Ho. split; [|reflexivity].
        rewrite <- (firstn_skipn L x) at 1. rewrite firstn_app, E, Hfull.
        rewrite (@firstn_all2 _ k (item :: items)) by lia. f_equal.
        replace (n + L)%nat with (L + n)%nat by lia.
        rewrite <- skipn_skipn. fold x. f_equal. unfold k. lia.
Qed.

End HonestUpstream.

Section WholeResultSet.

Import Client.

Context {RT : Runtime} {St : Type} {SE : Session St}.

(** X8. Against an upstream that answers every request with the slice it
    asks for, the uncapped generator yields the whole result set, each
    record once and in order, ends normally, and has made one request more
    than the number of full pages; any fuel above that number is enough. *)
Theorem search_companies_yields_all (reachable : St -> Prop) (fuel : nat)
    (self : client) (province code enrichment digits : string) (lim : Z)
    (status : option string) (db : list value) (s : St) :
  0 < lim ->
  sanitize_ateco_code code = Ok digits ->
  let params := {| province := province; ateco_code := digits;
                   data_enrichment := enrichment; limit := Z.min lim 100;
                   activity_status := status; dry_run := false |} in
  serves reachable self params db ->
  reachable s ->
  (List.length db < fuel * Z.to_nat (Z.min lim 100))%nat ->
  let r := search_companies fuel self province code enrichment lim None status s in
  yielded r = db
  /\ outcome r = Finished
  /\ List.length (queries r) = S (List.length db / Z.to_nat (Z.min lim 100)).
Proof.
  intros Hl Hc params Hu Hr Hfuel r. subst r.
  rewrite search_companies_start with (digits := digits) by assumption.
  fold params.
  destruct (pages_serves_all reachable self params db ltac:(cbn; lia) Hu fuel 0%nat 0 s Hr
              ltac:(cbn [limit params]; lia)) as (Hy & Ho & Hq & _).
  cbv zeta in Hy, Ho, Hq. change (Z.of_nat 0) with 0 in *.
  rewrite Hy, Ho, Hq. cbn [skipn limit params]. now rewrite Nat.sub_0_r.
Qed.

(** X9. Against the same upstream, a cap of at least 1 makes the generator
    yield exactly the first [max_records] records of the result set (all of
    them when there are fewer) and end normally. *)
Theorem search_companies_yields_first (reachable : St -> Prop) (fuel : nat)
    (self : client) (province code enrichment digits : string) (lim m : Z)
    (status : option string) (db : list value) (s : St) :
  0 < lim ->
  1 <= m ->
  sanitize_ateco_code code = Ok digits ->
  let params := {| province := province; ateco_code := digits;
                   data_enrichment := enrichment; limit := Z.min lim 100;
                   activity_status := status; dry_run := false |} in
  serves reachable self params db ->
  reachable s ->
  (List.length db < fuel * Z.to_nat (Z.min lim 100))%nat ->
  let r := search_companies fuel self province code enrichment lim (Some m) status s in
  yielded r = firstn (Z.to_nat m) db
  /\ outcome r = Finished.
Proof.
  intros Hl Hm Hc params Hu Hr Hfuel r. subst r.
  rewrite search_companies_start with (digits := digits) by assumption.
  fold params.
  destruct (pages_serves_capped reachable self params db ltac:(cbn; lia) Hu m fuel 0%nat s
              Hr ltac:(lia) ltac:(cbn [limit params]; lia)) as (Hy & Ho).
  cbv zeta in Hy, Ho. change (Z.of_nat 0) with 0 in *.
  rewrite Hy, Ho. cbn [skipn]. now rewrite Nat.sub_0_r.
Qed.

End WholeResultSet.

Section CatalogueFacts.

Import Client Doubles Scenarios Upstream.

Context {RT : Runtime}.

Lemma catalogue_serves (self : client) (params : SearchParams) (db : list value) :
  serves (fun s => records s = db) self params db.
Proof.
  intros n s Hs.
  exists [("success", PBool true);
          ("data", PList (firstn (Z.to_nat (limit params)) (skipn n db)))].
  exists {| records := records s; requests := S (requests s) |}.
  split; [|split; [exact Hs | reflexivity]].
  unfold _get, io_bind, lift. cbn [session_get catalogue_session].
  replace (query_nat (as_query_params params (Z.of_nat n)) "limit")
    with (Z.to_nat (limit params)) by reflexivity.
  replace (query_nat (as_query_params params (Z.of_nat n)) "skip") with n
    by (unfold query_nat; cbn; now rewrite Nat2Z.id).
  rewrite Hs. reflexivity.
Qed.

End CatalogueFacts.

(** * More on the exporter *)

Section HelperFacts.

Import Exporter.

Context {RT : Runtime}.

Lemma nested_get_none (path : list string) : _nested_get PNone path = PNone.
Proof. now destruct path. Qed.

(** X10. Reading a path in two steps is reading it at once:
    [_nested_get(_nested_get(v, *p), *q)] is [_nested_get(v, *p, *q)]; and
    from a value that is not a mapping every non-empty path gives None. *)
Theorem nested_get_app (v : value) (p q : list string) :
  _nested_get v (p ++ q) = _nested_get (_nested_get v p) q
  /\ (mapping_or_falsy v = false -> p <> [] -> _nested_get v p = PNone).
Proof.
  split.
  - revert v. induction p as [|key p IH]; intros v; [reflexivity|].
    cbn [app _nested_get].
    destruct v; try (symmetry; apply nested_get_none). apply IH.
  - intros H Hp. destruct p as [|key p]; [contradiction|].
    destruct v; try reflexivity. discriminate H.
Qed.

(** X11. On an address whose [gps] is absent, falsy or a mapping,
    [_safe_coordinate] returns the element of [gps.coordinates] at the
    index when that is a list long enough, and None otherwise (no list, or
    a list too short); on any other [gps] it raises AttributeError. *)
Theorem safe_coordinate_cases (address : dict) (index : nat) :
  let gps := dict_get address "gps" in
  _safe_coordinate (PDict address) index
  = if mapping_or_falsy gps then
      Ok match dict_get (fields gps) "coordinates" with
         | PList items =>
             match nth_error items index with
             | Some v => v
             | None => PNone
             end
         | _ => PNone
         end
    else Raise (AttributeError (type_of gps) "get").
Proof.
  intros gps. destruct (mapping_or_falsy gps) eqn:M.
  - subst gps. rewrite (safe_coordinate_ok _ _ M). f_equal. unfold coordinate.
    destruct (dict_get (fields (dict_get address "gps")) "coordinates");
      try reflexivity.
    destruct (Nat.ltb_spec index (List.length items)) as [H|H].
    + apply nth_error_nth'  with (d := PNone) in H. now rewrite H.
    + apply nth_error_None in H. now rewrite H.
  - unfold _safe_coordinate. cbn [get bind]. fold gps. unfold por.
    destruct gps; cbn in M; try discriminate M;
      apply negb_false_iff in M; cbn [truthy]; rewrite M; reflexivity.
Qed.

(** X12. [_timestamp_to_iso] leaves everything that is not a number as it
    is, gives either the ISO text or its argument back, and converting
    its result again changes nothing. *)
Theorem timestamp_to_iso_idempotent (t : value) :
  (is_number t = false -> _timestamp_to_iso t = t)
  /\ (_timestamp_to_iso t = t \/ exists iso, _timestamp_to_iso t = PStr iso)
  /\ _timestamp_to_iso (_timestamp_to_iso t) = _timestamp_to_iso t.
Proof.
  unfold _timestamp_to_iso. split; [|split].
  - now intros ->.
  - destruct (is_number t); [|now left].
    destruct (utc_isoformat t); [right; eauto | now left].
  - destruct (is_number t) eqn:N.
    + destruct (utc_isoformat t) eqn:U; [reflexivity|]. now rewrite N, U.
    + now rewrite N.
Qed.

Lemma lookup_all_keys (row : dict) :
  NoDup (map fst row) -> map (dict_get row) (map fst row) = map snd row.
Proof.
  induction row as [|[k v] row IH]; intros H; [reflexivity|].
  inversion H as [|? ? Hin Hnd]; subst. cbn [map fst snd]. f_equal.
  - unfold dict_get, dict_get_default. cbn. now rewrite String.eqb_refl.
  - rewrite <- (IH Hnd). apply map_ext_in. intros k' Hk'.
    unfold dict_get, dict_get_default. cbn [dict_lookup].
    destruct (String.eqb_spec k k') as [->|_]; [contradiction | reflexivity].
Qed.

Lemma headers_distinct : NoDup STANDARD_HEADERS.
Proof.
  assert (E : nodup string_dec STANDARD_HEADERS = STANDARD_HEADERS) by reflexivity.
  rewrite <- E. apply NoDup_nodup.
Qed.

(** X13. Every flat record has exactly the 42 standard keys, each once and
    in header order, so the cells of its row are its values in order: no
    field is dropped, repeated or moved between flattening and export. *)
Theorem flatten_row_cells (record : value) (row : dict) :
  flatten_company_record record = Ok row ->
  map fst row = STANDARD_HEADERS
  /\ List.length row = 42%nat
  /\ NoDup (map fst row)
  /\ row_cells row = map snd row.
Proof.
  intros H. destruct (flatten_ok_id _ _ H) as (K & _ & _).
  assert (N : NoDup (map fst row)) by (rewrite K; apply headers_distinct).
  repeat split; [exact K | | exact N |].
  - rewrite <- (length_map fst), K. reflexivity.
  - unfold row_cells. rewrite <- K. now apply lookup_all_keys.
Qed.

End HelperFacts.

Section FlattenFacts.

Import Exporter.

Context {RT : Runtime}.

Ltac by_cases_of Hin :=
  cbn in Hin; repeat (destruct Hin as [Hin|Hin]; [now inversion Hin|]); destruct Hin.

(** The flat record of a well-shaped record, field by field. *)
Lemma flatten_fields (d : dict) :
  well_shaped d = true ->
  let ecofin := fields (ecofin_block d) in
  let employees := fields (dict_get d "employees") in
  exists flat,
    flatten_company_record (PDict d) = Ok flat
    /\ (forall fk rk, In (fk, rk) copied_fields -> dict_get flat fk = dict_get d rk)
    /\ (forall fk rk, In (fk, rk) timestamp_fields ->
          dict_get flat fk = _timestamp_to_iso (dict_get d rk))
    /\ (forall fk path, In (fk, path) classification_fields ->
          dict_get flat fk = follow (PDict d) path)
    /\ (forall fk path, In (fk, path) contact_fields ->
          dict_get flat fk = _nested_get (PDict d) path)
    /\ map (dict_get flat)
         [ "turnover"; "turnover_year"; "turnover_range"; "share_capital";
           "net_worth"; "enterprise_size"; "employees"; "employee_range";
           "employee_trend" ]
       = [ dict_get ecofin "turnover"; dict_get ecofin "turnoverYear";
           _nested_get (PDict ecofin) ["turnoverRange"; "description"];
           dict_get ecofin "shareCapital"; dict_get ecofin "netWorth";
           _nested_get (PDict ecofin) ["enterpriseSize"; "description"];
           por (dict_get employees "employee") (dict_get ecofin "employees");
           _nested_get (PDict employees) ["employeeRange"; "description"];
           dict_get employees "employeeTrend" ].
Proof.
  intros H. cbv zeta. unfold well_shaped, registered_office, ecofin_block in *.
  apply forallb_cons_true in H as [Ha H]. apply forallb_cons_true in H as [Ho H].
  apply forallb_cons_true in H as [Hg H]. apply forallb_cons_true in H as [Hc H].
  apply forallb_cons_true in H as [Hc1 H]. apply forallb_cons_true in H as [Hc2 H].
  apply forallb_cons_true in H as [Hb H]. apply forallb_cons_true in H as [H7 H].
  apply forallb_cons_true in H as [He _].
  unfold flatten_company_record. cbn [get bind].
  repeat (first [ rewrite (por_fields _ Ha) | rewrite (por_fields _ Ho)
                | rewrite (por_fields _ Hc) | rewrite (por_fields _ Hc1)
                | rewrite (por_fields _ Hc2) | rewrite (por_fields _ Hb)
                | rewrite (por_fields _ He) ]; cbn [get bind]).
  rewrite !(safe_coordinate_ok _ _ Hg).
  destruct (truthy (dict_get (fields (dict_get d "balanceSheets")) "last")) eqn:T;
    cbn [bind].
  - rewrite !(get_mapping _ _ H7 T). cbn [bind].
    destruct (truthy (dict_get (fields (dict_get d "employees")) "employee")) eqn:Te;
      cbn [display bind]; eexists; (split; [reflexivity|]);
      (split; [intros fk rk Hin; by_cases_of Hin|]);
      (split; [intros fk rk Hin; by_cases_of Hin|]);
      (split; [intros fk rk Hin; by_cases_of Hin|]);
      (split; [intros fk rk Hin; by_cases_of Hin|]);
      rewrite <- !(truthy_mapping _ H7 T); unfold por; rewrite ?Te; reflexivity.
  - rewrite (por_fields _ H7). cbn [get bind].
    destruct (truthy (dict_get (fields (dict_get d "employees")) "employee")) eqn:Te;
      cbn [display bind]; eexists; (split; [reflexivity|]);
      (split; [intros fk rk Hin; by_cases_of Hin|]);
      (split; [intros fk rk Hin; by_cases_of Hin|]);
      (split; [intros fk rk Hin; by_cases_of Hin|]);
      (split; [intros fk rk Hin; by_cases_of Hin|]);
      unfold por; rewrite ?Te; reflexivity.
Qed.

End FlattenFacts.

Section FlattenOutcome.

Import Exporter.

Context {RT : Runtime}.

Lemma ae_ok {A} (a : A) : attribute_errors_only (Ok a).
Proof. intros e H. discriminate H. Qed.

Lemma ae_get (v : value) (key : string) : attribute_errors_only (get v key).
Proof. intros e. destruct v; cbn; intros H; inversion H; eauto. Qed.

Lemma ae_bind {A B} (m : result A) (k : A -> result B) :
  attribute_errors_only m -> (forall a, attribute_errors_only (k a)) ->
  attribute_errors_only (bind m k).
Proof.
  intros Hm Hk e. destruct m as [a|e']; cbn; [apply Hk|].
  intros H. apply Hm. now inversion H.
Qed.

Lemma ae_if {A} (b : bool) (m1 m2 : result A) :
  attribute_errors_only m1 -> attribute_errors_only m2 ->
  attribute_errors_only (if b then m1 else m2).
Proof. now destruct b. Qed.

Lemma ae_safe_coordinate (v : value) (index : nat) :
  attribute_errors_only (_safe_coordinate v index).
Proof.
  unfold _safe_coordinate.
  apply ae_bind; [apply ae_get|]. intros g.
  apply ae_bind; [apply ae_get|]. intros coords.
  destruct coords; try apply ae_ok. apply ae_if; apply ae_ok.
Qed.

Lemma ae_display (fs : list (string * result value)) :
  Forall (fun km => attribute_errors_only (snd km)) fs ->
  attribute_errors_only (display fs).
Proof.
  induction 1 as [|[k m] fs Hm _ IH]; cbn [display]; [apply ae_ok|].
  apply ae_bind; [exact Hm|]. intros v.
  apply ae_bind; [exact IH|]. intros rest. apply ae_ok.
Qed.

Lemma ae_flatten (record : value) :
  attribute_errors_only (flatten_company_record record).
Proof.
  unfold flatten_company_record.
  do 10 (apply ae_bind; [apply ae_get | intros ?]).
  apply ae_bind;
    [apply ae_if; [apply ae_ok | apply ae_bind; [apply ae_get | intros ?; apply ae_ok]]
    | intros ?].
  apply ae_bind; [apply ae_get | intros ?].
  apply ae_display.
  repeat (constructor;
          [cbn [snd];
           first [ apply ae_get | apply ae_ok | apply ae_safe_coordinate
                 | apply ae_bind; [apply ae_get | intros ?;
                     first [apply ae_ok | apply ae_if; [apply ae_ok | apply ae_get]]] ]
          |]).
  constructor.
Qed.

(** X14. Flattening a mapping either returns a flat record with the
    standard keys, exactly when every block on the access paths is absent,
    falsy or a mapping, or raises the AttributeError of a [get] on a block
    that is not a mapping; it raises nothing else. A record that is not a
    mapping raises that error at once. *)
Theorem flatten_returns_or_attribute_error (record : value) :
  (forall d, record = PDict d ->
     (well_shaped d = true
      /\ exists flat, flatten_company_record record = Ok flat
                      /\ map fst flat = STANDARD_HEADERS)
     \/ (well_shaped d = false
         /\ exists ty, flatten_company_record record = Raise (AttributeError ty "get")))
  /\ ((forall d, record <> PDict d) ->
      flatten_company_record record = Raise (AttributeError (type_of record) "get")).
Proof.
  split.
  - intros d ->. destruct (well_shaped d) eqn:W.
    + left. split; [reflexivity|].
      destruct (flatten_well_shaped d W) as (flat & E & K & _). eauto.
    + right. split; [reflexivity|].
      destruct (flatten_company_record (PDict d)) as [flat|e] eqn:E.
      * rewrite (flatten_ok_well_shaped _ _ E) in W. discriminate W.
      * destruct (ae_flatten _ _ E) as (ty & ->). eauto.
  - intros H. destruct record; try reflexivity. now elim (H entries).
Qed.

(** X15. In the flat record of a well-shaped record the eleven identity
    fields are the record's own top-level values, unchanged, and the three
    timestamp fields are the record's timestamps passed through
    [_timestamp_to_iso]. *)
Theorem flatten_copied_fields (d : dict) :
  well_shaped d = true ->
  exists flat,
    flatten_company_record (PDict d) = Ok flat
    /\ (forall fk rk, In (fk, rk) copied_fields -> dict_get flat fk = dict_get d rk)
    /\ (forall fk rk, In (fk, rk) timestamp_fields ->
          dict_get flat fk = _timestamp_to_iso (dict_get d rk)).
Proof.
  intros W. destruct (flatten_fields d W) as (flat & E & C & T & _).
  exists flat. auto.
Qed.

(** X16. In the flat record of a well-shaped record the classification
    fields are read by following their path through blocks that may be
    absent or falsy, and the four contact fields are what [_nested_get]
    reads from the record: None as soon as a step is not a mapping. *)
Theorem flatten_path_fields (d : dict) :
  well_shaped d = true ->
  exists flat,
    flatten_company_record (PDict d) = Ok flat
    /\ (forall fk path, In (fk, path) classification_fields ->
          dict_get flat fk = follow (PDict d) path)
    /\ (forall fk path, In (fk, path) contact_fields ->
          dict_get flat fk = _nested_get (PDict d) path).
Proof.
  intros W. destruct (flatten_fields d W) as (flat & E & _ & _ & C & N & _).
  exists flat. auto.
Qed.

(** X17. The financial fields of a well-shaped record come from
    [balanceSheets.last] when that is truthy and from the record's
    [ecofin] otherwise, never from a mix; the head count is
    [employees.employee], or the financial block's [employees] when the
    former is missing or falsy (a head count of 0 included). *)
Theorem flatten_financial_fields (d : dict) :
  well_shaped d = true ->
  let last := dict_get (fields (dict_get d "balanceSheets")) "last" in
  let ecofin := fields (if truthy last then last else dict_get d "ecofin") in
  let employees := fields (dict_get d "employees") in
  exists flat,
    flatten_company_record (PDict d) = Ok flat
    /\ dict_get flat "turnover" = dict_get ecofin "turnover"
    /\ dict_get flat "turnover_year" = dict_get ecofin "turnoverYear"
    /\ dict_get flat "turnover_range"
       = _nested_get (PDict ecofin) ["turnoverRange"; "description"]
    /\ dict_get flat "share_capital" = dict_get ecofin "shareCapital"
    /\ dict_get flat "net_worth" = dict_get ecofin "netWorth"
    /\ dict_get flat "enterprise_size"
       = _nested_get (PDict ecofin) ["enterpriseSize"; "description"]
    /\ dict_get flat "employees"
       = (if truthy (dict_get employees "employee") then dict_get employees "employee"
          else dict_get ecofin "employees")
    /\ dict_get flat "employee_range"
       = _nested_get (PDict employees) ["employeeRange"; "description"]
    /\ dict_get flat "employee_trend" = dict_get employees "employeeTrend".
Proof.
  intros W. cbv zeta. destruct (flatten_fields d W) as (flat & E & _ & _ & _ & _ & F).
  cbv zeta in F. unfold ecofin_block, por in F. cbn [map] in F.
  exists flat. split; [exact E|].
  repeat split;
    [ exact (f_equal (fun l => nth 0 l PNone) F)
    | exact (f_equal (fun l => nth 1 l PNone) F)
    | exact (f_equal (fun l => nth 2 l PNone) F)
    | exact (f_equal (fun l => nth 3 l PNone) F)
    | exact (f_equal (fun l => nth 4 l PNone) F)
    | exact (f_equal (fun l => nth 5 l PNone) F)
    | exact (f_equal (fun l => nth 6 l PNone) F)
    | exact (f_equal (fun l => nth 7 l PNone) F)
    | exact (f_equal (fun l => nth 8 l PNone) F) ].
Qed.

End FlattenOutcome.

Section AutosizeFacts.

Import Exporter.

Context {RT : Runtime}.

Lemma fold_left_max_ge (l : list Z) :
  forall a, a <= fold_left Z.max l a /\ forall x, In x l -> x <= fold_left Z.max l a.
Proof.
  induction l as [|y l IH]; intros a; cbn [fold_left].
  - split; [lia | intros x []].
  - destruct (IH (Z.max a y)) as [H1 H2]. split; [lia|].
    intros x [<- | Hx]; [lia | now apply H2].
Qed.

Lemma max_default_ge (l : list Z) (d x : Z) : In x l -> x <= max_default l d.
Proof.
  destruct l as [|y l]; [intros []|]. cbn [max_default].
  destruct (fold_left_max_ge l y) as [H1 H2].
  intros [<- | Hx]; [exact H1 | now apply H2].
Qed.

Lemma column_width_at (ws : worksheet) (count idx : nat) :
  (1 <= idx <= count)%nat ->
  nth (idx - 1) (column_widths (_autosize_columns ws count)) 0 = column_width ws idx.
Proof.
  intros H. cbn [_autosize_columns column_widths].
  rewrite (nth_indep _ 0 (column_width ws 0)) by (rewrite length_map, length_seq; lia).
  rewrite map_nth, seq_nth by lia. f_equal. lia.
Qed.

(** X18. [_autosize_columns] changes nothing but the widths; it sets one
    width per column, never above 60; a column is at least as wide as each
    of its values rendered as text plus 2, up to that cap; and a column
    with no value at all gets the width 12. *)
Theorem autosize_columns_widths (ws : worksheet) (count : nat) :
  let sized := _autosize_columns ws count in
  rows sized = rows ws
  /\ title sized = title ws
  /\ List.length (column_widths sized) = count
  /\ forall idx, (1 <= idx <= count)%nat ->
       let w := nth (idx - 1) (column_widths sized) 0 in
       w <= 60
       /\ (forall row, In row (rows ws) -> nth (idx - 1) row PNone <> PNone ->
             Z.min (Z.of_nat (String.length (fmt (nth (idx - 1) row PNone))) + 2) 60 <= w)
       /\ ((forall row, In row (rows ws) -> nth (idx - 1) row PNone = PNone) -> w = 12).
Proof.
  intros sized. subst sized. split; [reflexivity|]. split; [reflexivity|].
  split; [cbn; now rewrite length_map, length_seq|].
  intros idx Hidx w. subst w. rewrite (column_width_at _ _ _ Hidx).
  unfold column_width. split; [lia|]. split.
  - intros row Hrow Hv.
    set (v := nth (idx - 1) row PNone) in *.
    assert (Hin : In (Z.of_nat (String.length (fmt v)))
                    (flat_map (fun v => match v with
                                        | PNone => []
                                        | _ => [Z.of_nat (String.length (fmt v))]
                                        end)
                              (map (fun row => nth (idx - 1) row PNone) (rows ws)))).
    { apply in_flat_map. exists v. split.
      - apply in_map_iff. exists row. auto.
      - destruct v; try (now left). contradiction. }
    pose proof (max_default_ge _ 10 _ Hin). lia.
  - intros Hnone.
    assert (E : flat_map (fun v => match v with
                                   | PNone => []
                                   | _ => [Z.of_nat (String.length (fmt v))]
                                   end)
                  (map (fun row => nth (idx - 1) row PNone) (rows ws)) = []).
    { induction (rows ws) as [|row rest IH]; [reflexivity|].
      cbn [map flat_map]. rewrite (Hnone row (or_introl eq_refl)).
      cbn [app]. apply IH. intros r Hr. apply Hnone. now right. }
    rewrite E. reflexivity.
Qed.

End AutosizeFacts.

(** * The command line *)

Section CliFacts.

Import Cli.

Context {RT : Runtime} {St : Type} {SE : Client.Session St}.
Context {FS : Type} {FI : Exporter.FileSystem FS}.

Lemma handle_cases (fs : FS) (report : string -> event) (e : exn) :
  let o := handle fs report e in
  files_after o = fs
  /\ ((ended o = Returns 1 /\ printed o = [report (exn_text e)]
       /\ is_OpenAPIError e = true)
      \/ (ended o = Propagates e /\ printed o = [] /\ is_OpenAPIError e = false)).
Proof.
  unfold handle. destruct (is_OpenAPIError e); cbn; auto.
Qed.





End CliFacts.

Section CliRuns.

Import Cli.

Context {RT : Runtime} {St : Type} {SE : Client.Session St}.
Context {FS : Type} {FI : Exporter.FileSystem FS}.

Variable a : args.
Variable environ : option string.
Variable tok digits : string.

Hypothesis token_found : token_or_environ (token a) environ = Some tok.
Hypothesis token_given : tok <> "".
Hypothesis code_clean : Client.sanitize_ateco_code (ateco a) = Ok digits.

Let client : Client.client :=
  {| Client.base_url := if sandbox a then Client.SANDBOX_BASE_URL
                        else Client.PRODUCTION_BASE_URL;
     Client.timeout := 30 |}.

Lemma sanitize_twice (code out : string) :
  Client.sanitize_ateco_code code = Ok out -> Client.sanitize_ateco_code out = Ok out.
Proof.
  unfold Client.sanitize_ateco_code.
  destruct (truthy (PStr code)); [|discriminate].
  destruct (truthy (PStr (str_filter isdigit code))) eqn:T; [|discriminate].
  cbn [negb]. intros H. inversion H; subst out. rewrite T. cbn [negb].
  rewrite (str_filter_fixed _ _ (str_filter_all isdigit code)). now rewrite T.
Qed.

Lemma main_with_client (fuel : nat) (s : St) (fs : FS) :
  main fuel a environ s fs
  = if dry_run a then
      match fst (Client.dry_run_count client (province a) digits (activity_status a) s)
      with
      | Raise e => handle fs DryRunFailed e
      | Ok total =>
          {| ended := Returns 0;
             printed := [DryRunReport total digits (str_upper (province a))];
             files_after := fs |}
      end
    else
      let records :=
        Client.search_companies fuel client (province a) digits (data_enrichment a)
          (limit a) (max_records a) (activity_status a) s in
      match Exporter.flatten_all (Client.yielded records) with
      | Raise e => handle fs ExtractFailed e
      | Ok _ =>
          match Client.outcome records with
          | Client.Raised e => handle fs ExtractFailed e
          | Client.OutOfFuel =>
              {| ended := Unfinished; printed := []; files_after := fs |}
          | Client.Finished =>
              match Exporter.export_to_excel (Client.yielded records) (output a) fs with
              | (Raise e, fs') => handle fs' ExtractFailed e
              | (Ok count, fs') =>
                  {| ended := Returns 0;
                     printed := [Saved count digits (str_upper (province a)) (output a)];
                     files_after := fs' |}
              end
          end
      end.
Proof.
  unfold main. rewrite token_found.
  assert (T : truthy (PStr tok) = true).
  { destruct (truthy (PStr tok)) eqn:T; [reflexivity|].
    apply truthy_str in T. contradiction. }
  rewrite T. cbn [negb]. rewrite code_clean.
  unfold Client.new_client. rewrite T. reflexivity.
Qed.

(** X21. When the upstream answers the first request with a reply that
    the validation refuses, [main] prints one error line and returns 1 if
    the exception is an OpenAPIError or one of its three subclasses (a 401,
    402 or 422 status, another error status, a reported failure); any other
    exception (a body that is not JSON or not an object) propagates. No
    file is written either way. This holds for a search and for a dry run. *)
Theorem main_first_reply_refused (fuel : nat) (s s1 : St) (fs : FS)
    (r : Client.response) (e : exn) :
  (forall url q t, Client.session_get s url q t = (Ok r, s1)) ->
  Client.validate r = Raise e ->
  (dry_run a = false -> 0 < limit a) ->
  let o := main (S fuel) a environ s fs in
  files_after o = fs
  /\ (is_OpenAPIError e = true ->
      ended o = Returns 1
      /\ printed o = [(if dry_run a then DryRunFailed else ExtractFailed) (exn_text e)])
  /\ (is_OpenAPIError e = false -> ended o = Propagates e /\ printed o = []).
Proof.
  intros Hs Hv Hl o. subst o. rewrite main_with_client.
  assert (G : forall q, Client._get client "/IT-search" q s = (Raise e, s1)).
  { intros q. rewrite (get_intro _ _ _ _ _ _ (Hs _ _ _)). now rewrite Hv. }
  assert (E : (if dry_run a then
                 match fst (Client.dry_run_count client (province a) digits
                              (activity_status a) s) with
                 | Raise e => handle fs DryRunFailed e
                 | Ok total =>
                     {| ended := Returns 0;
                        printed := [DryRunReport total digits (str_upper (province a))];
                        files_after := fs |}
                 end
               else
                 let records :=
                   Client.search_companies (S fuel) client (province a) digits
                     (data_enrichment a) (limit a) (max_records a) (activity_status a) s in
                 match Exporter.flatten_all (Client.yielded records) with
                 | Raise e => handle fs ExtractFailed e
                 | Ok _ =>
                     match Client.outcome records with
                     | Client.Raised e => handle fs ExtractFailed e
                     | Client.OutOfFuel =>
                         {| ended := Unfinished; printed := []; files_after := fs |}
                     | Client.Finished =>
                         match Exporter.export_to_excel (Client.yielded records)
                                 (output a) fs with
                         | (Raise e, fs') => handle fs' ExtractFailed e
                         | (Ok count, fs') =>
                             {| ended := Returns 0;
                                printed := [Saved count digits (str_upper (province a))
                                              (output a)];
                                files_after := fs' |}
                         end
                     end
                 end)
              = handle fs (if dry_run a then DryRunFailed else ExtractFailed) e).
  { destruct (dry_run a) eqn:D.
    - unfold Client.dry_run_count, Client.io_bind, Client.lift at 1.
      rewrite (sanitize_twice _ _ code_clean). cbv beta iota. now rewrite G.
    - cbv zeta.
      rewrite search_companies_start with (digits := digits)
        by first [apply Hl; reflexivity | exact (sanitize_twice _ _ code_clean)].
      cbn [Client.pages]. rewrite G. reflexivity. }
  rewrite E. unfold handle. destruct (is_OpenAPIError e); cbn;
    repeat split; intros; try discriminate; auto.
Qed.


(** X23. A dry run whose reply carries an integer [metadata.total] prints
    that total and returns 0, whatever the page size, the cap and the bound
    of the run are, and writes no file. *)
Theorem main_dry_run_total (fuel : nat) (s s1 : St) (fs : FS)
    (payload : value) (n : Z) :
  dry_run a = true ->
  Client._get client "/IT-search"
    (Client.as_query_params
       {| Client.province := province a; Client.ateco_code := digits;
          Client.data_enrichment := ""; Client.limit := 1;
          Client.activity_status := activity_status a; Client.dry_run := true |} 0) s
    = (Ok payload, s1) ->
  metadata_total payload = Some (PInt n) ->
  main fuel a environ s fs
  = {| ended := Returns 0;
       printed := [DryRunReport n digits (str_upper (province a))];
       files_after := fs |}.
Proof.
  intros D Hg Hm. rewrite main_with_client, D.
  rewrite (dry_run_count_reads _ _ _ _ _ _ _ _ (sanitize_twice _ _ code_clean) Hg).
  cbn [fst]. now rewrite (read_total_cases _ _ Hm).
Qed.

End CliRuns.

Section SheetFacts.

Import Exporter.

Context {RT : Runtime} {FS : Type} {FI : FileSystem FS}.

Lemma flatten_all_keys (records : list value) :
  forall flats,
    flatten_all records = Ok flats ->
    Forall (fun row => map fst row = STANDARD_HEADERS) flats.
Proof.
  induction records as [|r records IH]; intros flats H; cbn [flatten_all] in H.
  - inversion H. constructor.
  - apply bind_ok_inv in H as (row & Er & H).
    apply bind_ok_inv in H as (rest & Ef & H). inversion H; subst.
    constructor; [exact (proj1 (flatten_ok_id _ _ Er)) | exact (IH _ Ef)].
Qed.

Lemma headers_short :
  forallb (fun h => (String.length h <=? 58)%nat) STANDARD_HEADERS = true.
Proof. reflexivity. Qed.

(** X24. For records that can be exported, the sheet that the export
    hands to [wb.save] after making the parent directory is a rectangle of
    42 columns: the header row and, for each record in order, the values of
    its flat record in field order; it has 42 column widths, none above 60
    and each at least the length of the column's header plus 2. The call
    returns, with the number of records, only when the directory was made
    and this workbook saved. *)
Theorem export_to_excel_sheet_shape (records : list value) (output_path : string)
    (fs : FS) :
  exportable records = true ->
  exists flats wb,
    flatten_all records = Ok flats
    /\ export_to_excel records output_path fs
       = save_workbook wb output_path (Z.of_nat (List.length records)) fs
    /\ (forall n fs',
          export_to_excel records output_path fs = (Ok n, fs') ->
          n = Z.of_nat (List.length records)
          /\ exists fs1,
               mkdir_parent output_path fs = (None, fs1)
               /\ wb_save wb output_path fs1 = (None, fs'))
    /\ rows (active wb) = map PStr STANDARD_HEADERS :: map (map snd) flats
    /\ Forall (fun row => List.length row = 42%nat) (rows (active wb))
    /\ List.length (column_widths (active wb)) = 42%nat
    /\ forall idx, (1 <= idx <= 42)%nat ->
         Z.of_nat (String.length (nth (idx - 1) STANDARD_HEADERS "")) + 2
         <= nth (idx - 1) (column_widths (active wb)) 0 <= 60.
Proof.
  intros X. destruct (fill_workbook_ok records X) as (flats & F & L & W).
  pose proof (export_of_workbook _ _ _ output_path fs W) as E. rewrite L in E.
  pose proof (flatten_all_keys _ _ F) as K.
  assert (C : map row_cells flats = map (map snd) flats).
  { apply map_ext_in. intros row Hrow.
    pose proof (proj1 (Forall_forall _ _) K row Hrow) as Hk. cbv beta in Hk.
    unfold row_cells. rewrite <- Hk. apply lookup_all_keys.
    rewrite Hk. apply headers_distinct. }
  exists flats. eexists. split; [exact F|]. split; [exact E|].
  split; [intros n fs' R; rewrite E in R; exact (save_workbook_returns _ _ _ _ _ _ R)|].
  cbn [active rows _autosize_columns column_widths].
  split; [now rewrite C|]. split; [|split].
  - constructor; [reflexivity|]. rewrite C. apply Forall_map.
    apply Forall_impl with (2 := K). intros row Hk.
    rewrite length_map, <- (length_map fst row), Hk. reflexivity.
  - now rewrite length_map, length_seq.
  - intros idx Hidx.
    set (ws := {| title := "Aziende";
                  rows := map PStr STANDARD_HEADERS :: map row_cells flats;
                  column_widths := [] |}).
    change (map (column_width ws) (seq 1 (List.length STANDARD_HEADERS)))
      with (column_widths (_autosize_columns ws 42)).
    rewrite (column_width_at ws 42 idx Hidx).
    unfold column_width. split; [|lia].
    set (h := nth (idx - 1) STANDARD_HEADERS "").
    assert (Hh : (String.length h <= 58)%nat).
    { pose proof headers_short as S. rewrite forallb_forall in S.
      apply Nat.leb_le. apply S. apply nth_In. cbn. lia. }
    assert (Hin : In (Z.of_nat (String.length h))
                    (flat_map (fun v => match v with
                                        | PNone => []
                                        | _ => [Z.of_nat (String.length (fmt v))]
                                        end)
                              (map (fun row => nth (idx - 1) row PNone) (rows ws)))).
    { apply in_flat_map. exists (PStr h). split; [|now left].
      unfold ws. cbn [rows map]. left.
      rewrite (nth_indep _ PNone (PStr "")) by (rewrite length_map; cbn; lia).
      unfold h. now rewrite map_nth. }
    pose proof (max_default_ge _ 10 _ Hin). lia.
Qed.

End SheetFacts.

Section CliExport.

Import Cli.

Context {RT : Runtime} {St : Type} {SE : Client.Session St}.
Context {FS : Type} {FI : Exporter.FileSystem FS}.

Lemma forallb_firstn {A} (f : A -> bool) (n : nat) (l : list A) :
  forallb f l = true -> forallb f (firstn n l) = true.
Proof.
  revert n. induction l as [|x l IH]; intros n H; [now rewrite firstn_nil|].
  destruct n; [reflexivity|]. cbn [firstn forallb] in *.
  apply andb_true_iff in H as [Hx H]. now rewrite Hx, (IH n H).
Qed.

(** X25. End to end: with a token, a code that has digits and a positive
    page size, against an upstream that serves the slices of a result set
    whose records can all be exported, [main] fills a sheet with the header
    row and one row per record of the result set, or of its first
    [max_records] records under a cap of at least 1. When the parent
    directory is made and the workbook saved at the output path it reports
    the number of records saved and returns 0; when either operation fails
    its OSError propagates out of [main] and nothing is printed. *)
Theorem main_exports_result_set (reachable : St -> Prop) (fuel : nat) (a : args)
    (environ : option string) (tok digits : string) (db : list value) (s : St)
    (fs : FS) :
  token_or_environ (token a) environ = Some tok ->
  tok <> "" ->
  Client.sanitize_ateco_code (ateco a) = Ok digits ->
  dry_run a = false ->
  0 < limit a ->
  (forall m, max_records a = Some m -> 1 <= m) ->
  serves reachable
    {| Client.base_url := if sandbox a then Client.SANDBOX_BASE_URL
                          else Client.PRODUCTION_BASE_URL;
       Client.timeout := 30 |}
    {| Client.province := province a; Client.ateco_code := digits;
       Client.data_enrichment := data_enrichment a;
       Client.limit := Z.min (limit a) 100;
       Client.activity_status := activity_status a; Client.dry_run := false |}
    db ->
  reachable s ->
  (List.length db < fuel * Z.to_nat (Z.min (limit a) 100))%nat ->
  exportable db = true ->
  let saved := match max_records a with
               | Some m => firstn (Z.to_nat m) db
               | None => db
               end in
  exists wb,
    List.length (Exporter.rows (Exporter.active wb)) = S (List.length saved)
    /\ map (hd PNone) (tl (Exporter.rows (Exporter.active wb)))
       = map (fun r => dict_get (fields r) "id") saved
    /\ (forall fs1 fs2,
          Exporter.mkdir_parent (output a) fs = (None, fs1) ->
          Exporter.wb_save wb (output a) fs1 = (None, fs2) ->
          main fuel a environ s fs
          = {| ended := Returns 0;
               printed := [Saved (Z.of_nat (List.length saved)) digits
                             (str_upper (province a)) (output a)];
               files_after := fs2 |})
    /\ (forall msg fs1,
          Exporter.mkdir_parent (output a) fs = (Some msg, fs1) ->
          main fuel a environ s fs
          = {| ended := Propagates (OSError msg); printed := []; files_after := fs1 |})
    /\ (forall msg fs1 fs2,
          Exporter.mkdir_parent (output a) fs = (None, fs1) ->
          Exporter.wb_save wb (output a) fs1 = (Some msg, fs2) ->
          main fuel a environ s fs
          = {| ended := Propagates (OSError msg); printed := []; files_after := fs2 |}).
Proof.
  intros Ht Hne Hc D Hl Hm Hu Hr Hfuel X saved.
  rewrite (main_with_client a environ tok digits Ht Hne Hc), D. cbv zeta.
  rewrite search_companies_start with (digits := digits)
    by first [exact Hl | exact (sanitize_twice _ _ Hc)].
  set (client := {| Client.base_url := if sandbox a then Client.SANDBOX_BASE_URL
                                       else Client.PRODUCTION_BASE_URL;
                    Client.timeout := 30 |}) in *.
  set (params := {| Client.province := province a; Client.ateco_code := digits;
                    Client.data_enrichment := data_enrichment a;
                    Client.limit := Z.min (limit a) 100;
                    Client.activity_status := activity_status a;
                    Client.dry_run := false |}) in *.
  assert (Hp : 0 < Client.limit params) by (cbn; lia).
  assert (Hf : (List.length db - 0 < fuel * Z.to_nat (Client.limit params))%nat)
    by (cbn [Client.limit params]; lia).
  assert (R : Client.yielded
                (Client.pages fuel client params (max_records a) 0 0 s) = saved
              /\ Client.outcome (Client.pages fuel client params (max_records a) 0 0 s)
                 = Client.Finished).
  { subst saved. destruct (max_records a) as [m|].
    - assert (H0 : Z.of_nat 0 < m) by (specialize (Hm m eq_refl); lia).
      destruct (pages_serves_capped reachable client params db Hp Hu m fuel 0%nat s Hr
                  H0 Hf) as (Hy & Ho).
      cbv zeta in Hy, Ho. change (Z.of_nat 0) with 0 in *.
      rewrite Hy, Ho. cbn [skipn]. now rewrite Nat.sub_0_r.
    - destruct (pages_serves_all reachable client params db Hp Hu fuel 0%nat 0 s Hr Hf)
        as (Hy & Ho & _).
      cbv zeta in Hy, Ho. change (Z.of_nat 0) with 0 in *.
      now rewrite Hy, Ho. }
  destruct R as [Ry Ro]. rewrite Ry, Ro.
  assert (Xs : exportable saved = true).
  { subst saved. destruct (max_records a); [|exact X].
    unfold exportable in *. apply andb_true_iff in X as [Xh Xr].
    now rewrite Xh, (forallb_firstn _ _ _ Xr). }
  destruct (fill_workbook_ok saved Xs) as (flats & F & L & W).
  rewrite F, (export_of_workbook _ _ _ (output a) fs W), L.
  match type of W with _ = Ok (_, ?w) => exists w end.
  split; [|split; [|split; [|split]]].
  - cbn [Exporter.active Exporter.rows Exporter._autosize_columns List.length].
    now rewrite length_map, L.
  - cbn [Exporter.active Exporter.rows Exporter._autosize_columns tl hd].
    unfold exportable in Xs. apply andb_true_iff in Xs as [_ Xr].
    destruct (flatten_all_ok saved Xr) as (flats' & F' & _ & I & _).
    rewrite F in F'. inversion F'; subst flats'.
    rewrite map_map. rewrite <- I. apply map_ext. intros row. reflexivity.
  - intros fs1 fs2 M S.
    now rewrite (proj1 (save_workbook_cases _ _ _ _) _ _ M S).
  - intros msg fs1 M.
    now rewrite (proj1 (proj2 (save_workbook_cases _ _ _ _)) _ _ M).
  - intros msg fs1 fs2 M S.
    now rewrite (proj2 (proj2 (save_workbook_cases _ _ _ _)) _ _ _ M S).
Qed.

End CliExport.

Section BoundFacts.

Import Client.

Context {RT : Runtime} {St : Type} {SE : Session St}.

Lemma pages_truncated (m : Z) (self : client) (params : SearchParams) (fuel : nat) :
  forall fetched fetched' skip (s : St),
    fetched < m ->
    yielded (pages fuel self params (Some m) fetched skip s)
    = firstn (Z.to_nat (m - fetched))
        (yielded (pages fuel self params None fetched' skip s)).
Proof.
  induction fuel as [|fuel IH]; intros fetched fetched' skip s Hf;
    [cbn; now rewrite firstn_nil|].
  cbn [pages].
  destruct (_get self "/IT-search" (as_query_params params skip) s) as [[payload|e] s1];
    [|cbn; now rewrite firstn_nil].
  unfold page.
  destruct (get_default payload "data" (PList [])) as [v|e];
    [|cbn; now rewrite firstn_nil].
  destruct v as [| | | | |data|]; try (cbn; now rewrite firstn_nil).
  destruct data as [|item data]; [cbn; now rewrite firstn_nil|].
  cbn [truthy negb]. rewrite yield_items_uncapped.
  destruct (yield_items_until_cap m (item :: data) fetched Hf) as (f & Y & Hlen).
  cbv zeta in Y, Hlen. rewrite Y.
  set (k := Z.to_nat (m - fetched)) in *.
  destruct (Nat.leb_spec k (List.length (item :: data))) as [Hk|Hk].
  - cbn [stop yielded].
    destruct (Z.of_nat (List.length (item :: data)) <? limit params);
      cbn [stop after_page yielded]; [reflexivity|].
    rewrite firstn_app. replace (k - List.length (item :: data))%nat with 0%nat by lia.
    cbn [firstn]. now rewrite app_nil_r.
  - rewrite (@firstn_all2 _ k (item :: data)) by lia. specialize (Hlen Hk). subst f.
    destruct (Z.of_nat (List.length (item :: data)) <? limit params);
      cbn [stop after_page yielded]; [symmetry; apply firstn_all2; lia|].
    rewrite (IH (fetched + Z.of_nat (List.length (item :: data)))
                (fetched' + Z.of_nat (List.length (item :: data)))
                (skip + limit params) s1) by lia.
    rewrite firstn_app, (@firstn_all2 _ k (item :: data)) by lia.
    f_equal. f_equal. unfold k. lia.
Qed.

(** X27. A cap only cuts the stream short: for the same upstream and the
    same bound, what the generator yields under a cap of at least 1 is the
    first [max_records] records of what it yields without a cap. *)
Theorem search_companies_cap_truncates (fuel : nat) (self : client)
    (province code enrichment : string) (lim m : Z) (status : option string)
    (s : St) :
  1 <= m ->
  yielded (search_companies fuel self province code enrichment lim (Some m) status s)
  = firstn (Z.to_nat m)
      (yielded (search_companies fuel self province code enrichment lim None status s)).
Proof.
  intros Hm. unfold search_companies.
  destruct (search_params province code enrichment lim status) as [params|e];
    [|cbn; now rewrite firstn_nil].
  rewrite (pages_truncated m self params fuel 0 0 0 s) by lia.
  now rewrite Z.sub_0_r.
Qed.

End BoundFacts.

Section DryRunRequest.

Import Client Doubles.

Context {RT : Runtime}.

(** X28. A dry run sends exactly one request, whatever the session then
    answers: a GET on [/IT-search] of the client's host, with the sanitized
    code, offset 0, page size 1 and [dryRun] set to 1, and without
    [dataEnrichment]. *)
Theorem dry_run_count_request (self : client) (province code digits : string)
    (status : option string) (replies : list response) :
  sanitize_ateco_code code = Ok digits ->
  exists q,
    calls (snd (dry_run_count self province code status
                  {| _responses := replies; calls := [] |}))
    = [(base_url self ++ "/IT-search", q, timeout self)]
    /\ dict_lookup "atecoCode" q = Some (PStr digits)
    /\ dict_lookup "skip" q = Some (PInt 0)
    /\ dict_lookup "limit" q = Some (PInt 1)
    /\ dict_lookup "dryRun" q = Some (PInt 1)
    /\ dict_lookup "dataEnrichment" q = None.
Proof.
  intros Hc. eexists. split.
  - unfold dry_run_count, io_bind, lift at 1. rewrite Hc. cbv beta iota.
    unfold _get, io_bind. cbn [session_get dummy_session _responses calls app].
    destruct replies as [|r rest]; [reflexivity|].
    unfold lift. destruct (validate r) as [payload|e]; [|reflexivity].
    cbn [calls snd]. reflexivity.
  - unfold as_query_params.
    cbn [Client.province Client.ateco_code Client.data_enrichment Client.limit
         Client.activity_status Client.dry_run truthy String.eqb negb app].
    destruct (opt_truthy status); cbn; auto.
Qed.

End DryRunRequest.

(** * More scenarios, run *)

Section MoreRuns.

Import Client Exporter Doubles Scenarios Upstream Cases.

#[local] Existing Instance plain_runtime.

Lemma sanitize_ateco_code_idempotent_witness :
  str_isdigit "1071" = true /\ sanitize_ateco_code "1071" = Ok "1071".
Proof.
  destruct (sanitize_ateco_code_idempotent "10.71" "1071" eq_refl) as (D & _ & I).
  split; [exact D | exact I].
Defined.

Lemma search_companies_offsets_witness :
  map (dict_lookup "skip")
      (queries (search_companies 4 sandbox_client "VR" "10.71" "Advanced" 3 None None shop))
  = [Some (PInt 0); Some (PInt 3); Some (PInt 6)].
Proof.
  pose proof (@search_companies_offsets plain_runtime Catalogue catalogue_session
                4 sandbox_client "VR" "10.71" "Advanced" "1071" 3 None None shop
                eq_refl eq_refl) as H.
  cbv zeta in H. rewrite H. reflexivity.
Defined.

Lemma search_companies_first_reply_refused_witness :
  let r := search_companies 1 sandbox_client "VR" "10.71" "Advanced" 3 None None
             unauthorized in
  yielded r = []
  /\ outcome r = Raised (AuthenticationError "Unauthorized: check your bearer token")
  /\ List.length (queries r) = 1%nat.
Proof.
  pose proof (@search_companies_first_reply_refused plain_runtime Endless endless_session
                0 sandbox_client "VR" "10.71" "Advanced" "1071" 3 None None
                unauthorized {| reply := DummyResponse 401 PNone; served := 1 |}
                (DummyResponse 401 PNone)
                (AuthenticationError "Unauthorized: check your bearer token")
                eq_refl eq_refl eq_refl eq_refl) as H.
  cbv zeta. rewrite H. repeat split.
Defined.

Lemma search_companies_yields_all_witness :
  let r := search_companies 4 sandbox_client "VR" "10.71" "Advanced" 3 None None shop in
  yielded r = seven /\ outcome r = Finished /\ List.length (queries r) = 3%nat.
Proof.
  exact (@search_companies_yields_all plain_runtime Catalogue catalogue_session
           (fun s => records s = seven) 4 sandbox_client "VR" "10.71" "Advanced" "1071"
           3 None seven shop eq_refl eq_refl (catalogue_serves _ _ _) eq_refl
           ltac:(cbn; lia)).
Defined.

Lemma search_companies_yields_first_witness :
  let r := search_companies 4 sandbox_client "VR" "10.71" "Advanced" 3 (Some 5) None
             shop in
  yielded r = map company ["0"; "1"; "2"; "3"; "4"] /\ outcome r = Finished.
Proof.
  exact (@search_companies_yields_first plain_runtime Catalogue catalogue_session
           (fun s => records s = seven) 4 sandbox_client "VR" "10.71" "Advanced" "1071"
           3 5 None seven shop eq_refl ltac:(lia) eq_refl (catalogue_serves _ _ _)
           eq_refl ltac:(cbn; lia)).
Defined.

Lemma search_companies_cap_truncates_witness :
  yielded (search_companies 4 sandbox_client "VR" "10.71" "Advanced" 3 (Some 5) None shop)
  = firstn 5
      (yielded (search_companies 4 sandbox_client "VR" "10.71" "Advanced" 3 None None
                  shop)).
Proof.
  exact (@search_companies_cap_truncates plain_runtime Catalogue catalogue_session
           4 sandbox_client "VR" "10.71" "Advanced" 3 5 None shop ltac:(lia)).
Defined.

Lemma dry_run_count_request_witness :
  exists q,
    calls (snd (dry_run_count sandbox_client "VR" "10.71" None
                  {| _responses := []; calls := [] |}))
    = [(SANDBOX_BASE_URL ++ "/IT-search", q, 30)]
    /\ dict_lookup "dryRun" q = Some (PInt 1)
    /\ dict_lookup "dataEnrichment" q = None.
Proof.
  destruct (@dry_run_count_request plain_runtime sandbox_client "VR" "10.71" "1071" None
              [] eq_refl) as (q & C & _ & _ & _ & D & E).
  exists q. split; [exact C|]. split; [exact D | exact E].
Defined.

Lemma flatten_row_cells_witness :
  exists row,
    flatten_company_record (PDict alpha) = Ok row
    /\ List.length row = 42%nat
    /\ row_cells row = map snd row.
Proof.
  destruct (flatten_company_record (PDict alpha)) as [row|e] eqn:E;
    [|discriminate E].
  destruct (@flatten_row_cells plain_runtime (PDict alpha) row E) as (_ & L & _ & C).
  exists row. split; [reflexivity|]. split; [exact L | exact C].
Defined.

Lemma flatten_copied_fields_witness :
  exists flat,
    flatten_company_record (PDict located) = Ok flat
    /\ dict_get flat "company_name" = PStr "Example SRL"
    /\ dict_get flat "creation_timestamp" = PNone.
Proof.
  destruct (@flatten_copied_fields plain_runtime located eq_refl) as (flat & E & C & T).
  exists flat. split; [exact E|]. split.
  - rewrite (C "company_name" "companyName"); [reflexivity | cbn; auto].
  - rewrite (T "creation_timestamp" "creationTimestamp"); [reflexivity | cbn; auto].
Defined.

Lemma flatten_path_fields_witness :
  exists flat,
    flatten_company_record (PDict located) = Ok flat
    /\ dict_get flat "ateco_code" = PStr "1071"
    /\ dict_get flat "website" = PNone.
Proof.
  destruct (@flatten_path_fields plain_runtime located eq_refl) as (flat & E & C & N).
  exists flat. split; [exact E|]. split.
  - rewrite (C "ateco_code" ["atecoClassification"; "ateco"; "code"]);
      [reflexivity | cbn; auto].
  - rewrite (N "website" ["webAndSocial"; "website"]); [reflexivity | cbn; auto 10].
Defined.

Lemma flatten_financial_fields_witness :
  exists flat,
    flatten_company_record (PDict located) = Ok flat
    /\ dict_get flat "turnover" = PInt 1000000
    /\ dict_get flat "employees" = PInt 12.
Proof.
  destruct (@flatten_financial_fields plain_runtime located eq_refl)
    as (flat & E & T & _ & _ & _ & _ & _ & Emp & _).
  exists flat. split; [exact E|]. split; [exact T | exact Emp].
Defined.

Lemma export_to_excel_sheet_shape_witness :
  exists wb,
    export_to_excel [PDict alpha; PDict beta] "companies.xlsx" empty_disk
      = (Ok 2, {| directories := []; workbooks := [("companies.xlsx", wb)] |})
    /\ Forall (fun row => List.length row = 42%nat) (rows (active wb))
    /\ List.length (column_widths (active wb)) = 42%nat.
Proof.
  destruct (@export_to_excel_sheet_shape plain_runtime Disk disk
              [PDict alpha; PDict beta] "companies.xlsx" empty_disk eq_refl)
    as (flats & wb & _ & E & _ & _ & R & W & _).
  exists wb. split; [rewrite E; reflexivity|]. split; [exact R | exact W].
Defined.

End MoreRuns.

Section CliScenarios.

Import Client Exporter Doubles Scenarios Upstream Cases Cli.

#[local] Existing Instance plain_runtime.

Lemma secret_given : "secret" <> "".
Proof. discriminate. Qed.

Lemma main_first_reply_refused_witness :
  let o := main 1 search_args None unauthorized empty_disk in
  ended o = Returns 1
  /\ printed o = [ExtractFailed "Unauthorized: check your bearer token"]
  /\ files_after o = empty_disk.
Proof.
  destruct (@main_first_reply_refused plain_runtime Endless endless_session Disk disk
              search_args None "secret" "1071" eq_refl secret_given eq_refl
              0 unauthorized {| reply := DummyResponse 401 PNone; served := 1 |}
              empty_disk
              (DummyResponse 401 PNone)
              (AuthenticationError "Unauthorized: check your bearer token")
              (fun _ _ _ => eq_refl) eq_refl (fun _ => eq_refl)) as (F & O & _).
  destruct (O eq_refl) as [E P]. cbv zeta. auto.
Defined.


Lemma main_dry_run_total_witness :
  let '(_, session) := make_client [dry_run_reply (PInt 42)] in
  main 0 dry_run_args None session empty_disk
  = {| ended := Returns 0; printed := [DryRunReport 42 "1071" "VR"];
       files_after := empty_disk |}.
Proof.
  cbv beta iota delta [make_client].
  match goal with
  | |- main 0 _ _ ?s _ = _ =>
      exact (@main_dry_run_total plain_runtime DummySession dummy_session Disk disk
               dry_run_args None "secret" "1071" eq_refl secret_given eq_refl
               0 s (snd (dry_run_count sandbox_client "vr" "1071" None s)) empty_disk
               (dry_run_reply (PInt 42)) 42 eq_refl eq_refl eq_refl)
  end.
Defined.

Lemma main_exports_result_set_witness :
  (exists wb,
     main 4 search_args None shop empty_disk
     = {| ended := Returns 0;
          printed := [Saved 7 "1071" "VR" "companies.xlsx"];
          files_after := {| directories := [];
                            workbooks := [("companies.xlsx", wb)] |} |}
     /\ List.length (rows (active wb)) = 8%nat)
  /\ main 4 reports_args None shop with_reports
     = {| ended := Propagates (OSError "[Errno 21] Is a directory: 'reports'");
          printed := [];
          files_after := with_reports |}.
Proof.
  split.
  2:{ destruct (@main_exports_result_set plain_runtime Catalogue catalogue_session
                  Disk disk
                  (fun s => records s = seven) 4 reports_args None "secret" "1071" seven
                  shop with_reports
                  eq_refl secret_given eq_refl eq_refl eq_refl
                  ltac:(intros m H; discriminate H) (catalogue_serves _ _ _) eq_refl
                  ltac:(cbn; lia) eq_refl) as (wb & _ & _ & _ & _ & F).
      exact (F _ _ _ eq_refl eq_refl). }
  destruct (@main_exports_result_set plain_runtime Catalogue catalogue_session Disk disk
              (fun s => records s = seven) 4 search_args None "secret" "1071" seven shop
              empty_disk
              eq_refl secret_given eq_refl eq_refl eq_refl
              ltac:(intros m H; discriminate H) (catalogue_serves _ _ _) eq_refl
              ltac:(cbn; lia) eq_refl) as (wb & L & _ & S & _).
  exists wb. split; [exact (S _ _ eq_refl eq_refl) | exact L].
Defined.

End CliScenarios.
